(** * firehose/auth_handler.go: the token gate in front of an http.Handler

    A shallow embedding of [AuthHandler] and of the helpers it is built
    from ([ParseRequest], [Parse], [NewBasic]), together with the parts of
    Go's standard library that decide its behaviour ([strings.Split],
    [strings.SplitN], [base64.StdEncoding.DecodeString],
    [Request.ParseForm]).

    Go strings are byte sequences, and so are Rocq's: a [string] is a list
    of [ascii], one per byte.  [http.Header] and [url.Values] are
    [map[string][]string]; they are finite maps from strings to lists of
    strings here. *)

From Stdlib Require Import ZArith Ascii String List Bool Lia.
From stdpp Require Import base option gmap strings list.

Local Open Scope string_scope.
Local Open Scope Z_scope.

(** ** Package strings *)

Module Strings.

(** [strings.Count(s, sep)] for a one-byte separator. *)
Fixpoint Count (s : string) (sep : ascii) : nat :=
  match s with
  | EmptyString => O
  | String c rest =>
      if Ascii.eqb c sep then S (Count rest sep) else Count rest sep
  end.

(** [strings.Cut(s, sep)]: the text before and after the first [sep], or
    nothing when [sep] does not occur.  [genSplit] below uses it where Go
    writes [m := Index(s, sep)], [s[:m]] and [s[m+len(sep):]]. *)
Fixpoint Cut (s : string) (sep : ascii) : option (string * string) :=
  match s with
  | EmptyString => None
  | String c rest =>
      if Ascii.eqb c sep then Some (EmptyString, rest)
      else match Cut rest sep with
           | Some (before, after) => Some (String c before, after)
           | None => None
           end
  end.

(** The loop of [genSplit]: at most [cuts] separators are consumed, and
    the unsplit remainder is the last element. *)
Fixpoint genSplit (s : string) (sep : ascii) (cuts : nat) : list string :=
  match cuts with
  | O => [s]
  | S k =>
      match Cut s sep with
      | Some (before, after) => before :: genSplit after sep k
      | None => [s]
      end
  end.

(** [strings.SplitN(s, sep, n)]: [n = 0] gives nil, [n < 0] all the
    substrings, [n > 0] at most [n] of them. *)
Definition SplitN (s : string) (sep : ascii) (n : Z) : list string :=
  if n =? 0 then []
  else if n <? 0 then genSplit s sep (Count s sep)
  else genSplit s sep (Z.to_nat (n - 1)).

(** [strings.Split(s, sep)] is [genSplit(s, sep, 0, -1)]. *)
Definition Split (s : string) (sep : ascii) : list string := SplitN s sep (-1).

End Strings.

(** ** Package encoding/base64, the standard padded encoding *)

Module Base64.

(** [decodeMap] of [StdEncoding]: the 6-bit value of an alphabet byte,
    [0xff] for every other byte. *)
Definition decodeMap (c : ascii) : Z :=
  let n := Z.of_N (N_of_ascii c) in
  if (65 <=? n) && (n <=? 90) then n - 65
  else if (97 <=? n) && (n <=? 122) then n - 71
  else if (48 <=? n) && (n <=? 57) then n + 4
  else if n =? 43 then 62
  else if n =? 47 then 63
  else 255.

Definition padChar : ascii := "="%char.

Definition isNewline (c : ascii) : bool :=
  Ascii.eqb c "010"%char || Ascii.eqb c "013"%char.

(** [byte(v)]: the low eight bits. *)
Definition byte (v : Z) : ascii := ascii_of_N (Z.to_N (Z.land v 255)).

(** The tail of [decodeQuantum]: four 6-bit values become three bytes, of
    which the first [dlen - 1] are written.  The encoding is not strict,
    so the unused low bits of a padded quantum are not looked at. *)
Definition quantum (dbuf : list Z) : string :=
  let d := fun i => nth i dbuf 0 in
  let val :=
    Z.lor (Z.lor (Z.lor (Z.shiftl (d 0%nat) 18) (Z.shiftl (d 1%nat) 12))
                 (Z.shiftl (d 2%nat) 6)) (d 3%nat) in
  let out := [byte (Z.shiftr val 16); byte (Z.shiftr val 8); byte val] in
  string_of_list_ascii (firstn (Nat.pred (List.length dbuf)) out).

(** "skip over newlines" *)
Fixpoint skipNewlines (src : string) : string :=
  match src with
  | EmptyString => EmptyString
  | String c rest => if isNewline c then skipNewlines rest else src
  end.

(** [Decode], quantum after quantum.  [dbuf] holds the 6-bit values read
    so far in the current quantum ([j] is its length).  Any
    [CorruptInputError] is [None]: the caller only tests [err == nil]. *)
Fixpoint decode (src : string) (dbuf : list Z) : option string :=
  match src with
  | EmptyString =>
      match dbuf with
      | [] => Some EmptyString
      | _ => None
      end
  | String c rest =>
      let out := decodeMap c in
      if negb (out =? 255) then
        let dbuf' := (dbuf ++ [out])%list in
        if (List.length dbuf' =? 4)%nat
        then option_map (String.append (quantum dbuf')) (decode rest [])
        else decode rest dbuf'
      else if isNewline c then decode rest dbuf
      else if negb (Ascii.eqb c padChar) then None
      else
        match List.length dbuf with
        | 0%nat | 1%nat => None
        | 2%nat =>
            match skipNewlines rest with
            | EmptyString => None
            | String c2 rest2 =>
                if negb (Ascii.eqb c2 padChar) then None
                else match skipNewlines rest2 with
                     | EmptyString => Some (quantum dbuf)
                     | String _ _ => None
                     end
            end
        | _ =>
            match skipNewlines rest with
            | EmptyString => Some (quantum dbuf)
            | String _ _ => None
            end
        end
  end.

(** [StdEncoding.DecodeString(s)]: [Some b] for [(b, nil)], [None] when
    the error is not nil. *)
Definition DecodeString (s : string) : option string := decode s [].

(** The alphabet of [StdEncoding]. *)
Definition encodeStd : string :=
  "ABCDEFGHIJKLMNOPQRSTUVWXYZabcdefghijklmnopqrstuvwxyz0123456789+/".

(** [enc.encode[v & 0x3F]] *)
Definition encode (v : Z) : ascii :=
  match String.get (Z.to_nat (Z.land v 63)) encodeStd with
  | Some c => c
  | None => padChar
  end.

(** [uint(b)] for a byte. *)
Definition uint (c : ascii) : Z := Z.of_N (N_of_ascii c).

(** [StdEncoding.EncodeToString]: what a client puts after "Basic ".  Three
    bytes become four characters; one or two bytes left over are padded. *)
Fixpoint EncodeToString (src : string) : string :=
  match src with
  | EmptyString => EmptyString
  | String a EmptyString =>
      let val := Z.shiftl (uint a) 16 in
      String (encode (Z.shiftr val 18))
        (String (encode (Z.shiftr val 12))
           (String padChar (String padChar EmptyString)))
  | String a (String b EmptyString) =>
      let val := Z.lor (Z.shiftl (uint a) 16) (Z.shiftl (uint b) 8) in
      String (encode (Z.shiftr val 18))
        (String (encode (Z.shiftr val 12))
           (String (encode (Z.shiftr val 6))
              (String padChar EmptyString)))
  | String a (String b (String c rest)) =>
      let val :=
        Z.lor (Z.lor (Z.shiftl (uint a) 16) (Z.shiftl (uint b) 8)) (uint c) in
      String (encode (Z.shiftr val 18))
        (String (encode (Z.shiftr val 12))
           (String (encode (Z.shiftr val 6))
              (String (encode val) (EncodeToString rest))))
  end.

End Base64.

(** ** Package net/http: what the gate uses of a request *)

Abbreviation Values := (gmap string (list string)) (only parsing).

(** [http.Request].  [Header] is [r.Header]; [Form] and [PostForm] are the
    fields of the same names, [None] for a nil map.  [URLQuery] stands for
    [url.ParseQuery(r.URL.RawQuery)] and [BodyValues] for the form fields
    that [parsePostForm] would read from what is left of [r.Body]: the two
    sources that [ParseForm] merges.  Reading the body uses it up. *)
Record Request := mkRequest {
  Method : string;
  Path : string;
  Header : Values;
  URLQuery : Values;
  BodyValues : Values;
  PostForm : option Values;
  Form : option Values
}.

(** [copyValues(dst, src)]: for every key of [src], its values are appended
    to the ones [dst] has. *)
Definition copyValues (dst src : Values) : Values :=
  union_with (fun a b => Some (a ++ b)%list) dst src.

Definition hasBodyForm (method : string) : bool :=
  String.eqb method "POST" || String.eqb method "PUT"
  || String.eqb method "PATCH".

(** [req.ParseForm()] updates the request in place: the request after the
    call is returned.  Both steps are skipped when the field is already
    set, which makes the call idempotent.  When [PostForm] is nil and the
    method is POST, PUT or PATCH the body is read, and nothing of it is
    left for a later reader. *)
Definition ParseForm (r : Request) : Request :=
  let readsBody :=
    match PostForm r with
    | Some _ => false
    | None => hasBodyForm (Method r)
    end in
  let postForm :=
    match PostForm r with
    | Some p => p
    | None => if hasBodyForm (Method r) then BodyValues r else ∅
    end in
  let form :=
    match Form r with
    | Some f => f
    | None => copyValues postForm (URLQuery r)
    end in
  {| Method := Method r; Path := Path r; Header := Header r;
     URLQuery := URLQuery r;
     BodyValues := if readsBody then ∅ else BodyValues r;
     PostForm := Some postForm; Form := Some form |}.

(** [req.Form[key]]: indexing a map yields nil for a key that is absent
    (and for a nil map). *)
Definition FormValue (r : Request) (key : string) : list string :=
  match Form r with
  | Some f => default [] (f !! key)
  | None => []
  end.

Definition StatusUnauthorized : Z := 401.

(** [fmt.Fprintln(w, s)] for a single string: the string and a line feed.
    [http.Error(w, error, code)] sets the status [code] and writes [error]
    this way, so the body of its answer is [Fprintln error]. *)
Definition Fprintln (s : string) : string :=
  s ++ String "010"%char EmptyString.


(** ** Package firehose *)

(** Go's [error] values, by their message; [None] is nil. *)
Definition error : Type := option string.

(** [Parse]: scheme and credentials of an "Authorization" header value. *)
Definition Parse (value : string) : string * string * error :=
  match Strings.SplitN value " "%char 2 with
  | [scheme; credentials] => (scheme, credentials, None)
  | _ => ("", "", Some "The authorization header is malformed.")
  end.

(** [ParseRequest]: the first value of the "Authorization" header goes to
    [Parse]. *)
Definition ParseRequest (r : Request) : string * string * error :=
  match Header r !! "Authorization" with
  | Some (h0 :: _) => Parse h0
  | Some [] | None => ("", "", Some "The authorization header is not set.")
  end.

Record Basic := mkBasic { Username : string; Password : string }.

(** [NewBasic] returns a pointer to a [Basic] and an error: the pointer is
    [None] when it is nil. *)
Definition NewBasic (credentials : string) : option Basic * error :=
  match Base64.DecodeString credentials with
  | Some b =>
      match Strings.Split b ":"%char with
      | [user; pass] => (Some {| Username := user; Password := pass |}, None)
      | _ => (None, Some "The basic authentication header is malformed.")
      end
  | None => (None, Some "The basic authentication header is malformed.")
  end.

(** A Go call either returns or panics. *)
Inductive Run (A : Type) : Type :=
| Returns (a : A)
| Panics.
Arguments Returns {A} a.
Arguments Panics {A}.

Section Gate.

(** What the decorated handler does with a request is left open. *)
Context {Response : Type}.

Record AuthHandler := mkAuthHandler {
  app : Request -> Response;
  token : string
}.

(** [authorize] returns [(unauthorized, reason)]; the request it leaves
    behind is returned with them, since the default branch parses the
    form in place.  The named results start as [false] and [""]. *)
Definition authorize (handler : AuthHandler) (req : Request)
  : Run (bool * string * Request) :=
  let '(scheme, credentials, _) := ParseRequest req in
  if String.eqb scheme "Bearer" then
    if negb (String.eqb credentials (token handler))
    then Returns (true, "Invalid Access Token", req)
    else Returns (false, "", req)
  else if String.eqb scheme "Basic" then
    let '(basic, err) := NewBasic credentials in
    let '(unauthorized, reason) :=
      match err with
      | Some _ => (true, "Malformed Basic Authorization crdentials")
      | None => (false, "")
      end in
    match basic with
    | None => Panics (* basic.Password with basic == nil *)
    | Some b =>
        if negb (String.eqb (Password b) (token handler))
        then Returns (true, "Invalid credentials", req)
        else Returns (unauthorized, reason, req)
    end
  else
    let req' := ParseForm req in
    match FormValue req' "access_token" with
    | [] => Returns (true, "Mising or invalid access_token", req')
    | first :: _ =>
        if negb (String.eqb first (token handler))
        then Returns (true, "Mising or invalid access_token", req')
        else Returns (false, "", req')
    end.

(** What one call of [ServeHTTP] does: it logs and answers through
    [http.Error], or hands the request to [app], or panics.  [logged] are
    the operands of [log.Println], [body] and [code] the body and the
    status of the answer. *)
Inductive Outcome : Type :=
| Unauthorized (logged : list string) (body : string) (code : Z)
| Forwarded (resp : Response)
| Panicked.

Definition ServeHTTP (handler : AuthHandler) (req : Request) : Outcome :=
  match authorize handler req with
  | Panics => Panicked
  | Returns (unauthorized, reason, req') =>
      if unauthorized
      then Unauthorized ["Unauthorised:"; reason] (Fprintln reason)
             StatusUnauthorized
      else Forwarded (app handler req')
  end.

Definition NewAuthHandler (app : Request -> Response) (token : string)
  : AuthHandler :=
  {| app := app; token := token |}.

(** The decision alone, without the request. *)
Definition decision (handler : AuthHandler) (req : Request)
  : Run (bool * string) :=
  match authorize handler req with
  | Returns (unauthorized, reason, _) => Returns (unauthorized, reason)
  | Panics => Panics
  end.

End Gate.

Arguments AuthHandler : clear implicits.
Arguments Outcome : clear implicits.

(** ** Vocabulary of the statements *)

(** The merged parameters of the request hold "access_token", and its
    first value is [tok]. *)
Definition has_access_token (r : Request) (tok : string) : Prop :=
  exists (f : Values) (vs : list string),
    Form (ParseForm r) = Some f /\ f !! "access_token" = Some (tok :: vs).

(** No header that the switch of [authorize] acts on: [ParseRequest] finds
    no scheme, or one that is neither "Bearer" nor "Basic". *)
Definition no_usable_header (r : Request) : Prop :=
  let '(scheme, _, _) := ParseRequest r in
  scheme <> "Bearer" /\ scheme <> "Basic".

(** The request presents [tok] on the channel that the switch of
    [authorize] selects for it: as the Bearer credentials, as the password
    that [NewBasic] extracts, or as the first "access_token" value when
    the scheme is neither. *)
Definition presents_token (r : Request) (tok : string) : Prop :=
  let '(scheme, credentials, _) := ParseRequest r in
  (scheme = "Bearer" /\ credentials = tok) \/
  (scheme = "Basic" /\
   exists user, NewBasic credentials = (Some (mkBasic user tok), None)) \/
  (scheme <> "Bearer" /\ scheme <> "Basic" /\ has_access_token r tok).

(** [h[0]] of the "Authorization" header, when there is one. *)
Definition firstValue (r : Request) : option string :=
  head (default [] (Header r !! "Authorization")).

(** The request with every "Authorization" value after the first dropped. *)
Definition firstAuthorization (r : Request) : Request :=
  {| Method := Method r; Path := Path r;
     Header := alter (firstn 1) "Authorization" (Header r);
     URLQuery := URLQuery r; BodyValues := BodyValues r;
     PostForm := PostForm r; Form := Form r |}.

(** The request as one call of [authorize] leaves it. *)
Definition requestAfter {Response : Type}
  (handler : AuthHandler Response) (req : Request) : Request :=
  match authorize handler req with
  | Returns (_, _, req') => req'
  | Panics => req
  end.

(** A GET request with the given headers and query parameters, and a gate
    with the token "s3cr3t" in front of a handler that answers with the
    request it was given. *)
Definition get (header query : Values) : Request :=
  {| Method := "GET"; Path := "/events"; Header := header;
     URLQuery := query; BodyValues := ∅; PostForm := None; Form := None |}.

(** A POST request whose body carries the given form fields. *)
Definition post (header body : Values) : Request :=
  {| Method := "POST"; Path := "/events"; Header := header;
     URLQuery := ∅; BodyValues := body; PostForm := None; Form := None |}.

Definition formPost (tok : string) : Request :=
  post ∅ {[ "access_token" := [tok] ]}.

Definition echo : AuthHandler Request := NewAuthHandler (fun r => r) "s3cr3t".

(** Requests that present the token in each of the three ways. *)
Definition bearerRequest (C : string) : Request :=
  get {[ "Authorization" := ["Bearer " ++ C] ]} ∅.

Definition basicRequest (b64 : string) : Request :=
  get {[ "Authorization" := ["Basic " ++ b64] ]} ∅.

Definition queryRequest (header : Values) (tok : string) : Request :=
  get header {[ "access_token" := [tok] ]}.

(** * Properties *)

(** ** The library functions on examples *)

Example decode_alice :
  Base64.DecodeString "YWxpY2U6czNjcjN0" = Some "alice:s3cr3t".
Proof. vm_compute. reflexivity. Qed.

Example decode_pad2 : Base64.DecodeString "QQ==" = Some "A".
Proof. vm_compute. reflexivity. Qed.

Example decode_pad1 : Base64.DecodeString "QUI=" = Some "AB".
Proof. vm_compute. reflexivity. Qed.

Example decode_bad : Base64.DecodeString "!!!" = None.
Proof. vm_compute. reflexivity. Qed.

(** Line breaks are skipped, padding is required and must end the input,
    and the low bits of a padded quantum are not checked. *)
Example decode_newlines :
  Base64.DecodeString (String "013" (String "010" "YWxp") ++ String "010" "Y2U=")
  = Some "alice".
Proof. vm_compute. reflexivity. Qed.

Example decode_unpadded : Base64.DecodeString "QQ" = None.
Proof. vm_compute. reflexivity. Qed.

Example decode_short_padding : Base64.DecodeString "QQ=" = None.
Proof. vm_compute. reflexivity. Qed.

Example decode_trailing : Base64.DecodeString "QQ==QQ==" = None.
Proof. vm_compute. reflexivity. Qed.

Example decode_loose_bits : Base64.DecodeString "QR==" = Some "A".
Proof. vm_compute. reflexivity. Qed.

Example encode_alice :
  Base64.EncodeToString "alice:s3cr3t" = "YWxpY2U6czNjcjN0".
Proof. vm_compute. reflexivity. Qed.

Example NewBasic_three_fields :
  NewBasic "YTpiOmM="
  = (None, Some "The basic authentication header is malformed.").
Proof. vm_compute. reflexivity. Qed.

Example split_ex : Strings.Split "a:b:c" ":"%char = ["a"; "b"; "c"].
Proof. vm_compute. reflexivity. Qed.

Example splitn_ex : Strings.SplitN "Bearer a b" " "%char 2 = ["Bearer"; "a b"].
Proof. vm_compute. reflexivity. Qed.

(** The gate on the requests of the spec's end-to-end example, and on a
    scheme that differs from "Bearer" in case only. *)
Example serve_query_token :
  ServeHTTP echo (queryRequest ∅ "s3cr3t")
  = Forwarded (ParseForm (queryRequest ∅ "s3cr3t")).
Proof. vm_compute. reflexivity. Qed.

Example serve_wrong_bearer :
  ServeHTTP echo (bearerRequest "wrong")
  = Unauthorized ["Unauthorised:"; "Invalid Access Token"]
      (Fprintln "Invalid Access Token") 401.
Proof. vm_compute. reflexivity. Qed.

Example serve_lowercase_bearer :
  ServeHTTP echo (get {[ "Authorization" := ["bearer s3cr3t"] ]} ∅)
  = Unauthorized ["Unauthorised:"; "Mising or invalid access_token"]
      (Fprintln "Mising or invalid access_token") 401.
Proof. vm_compute. reflexivity. Qed.

Example serve_no_credentials :
  ServeHTTP echo (get ∅ ∅)
  = Unauthorized ["Unauthorised:"; "Mising or invalid access_token"]
      (Fprintln "Mising or invalid access_token") 401.
Proof. vm_compute. reflexivity. Qed.

(** The body of a rejection is one byte longer than its reason. *)
Example rejection_body_length :
  String.length (Fprintln "Invalid Access Token") = 21%nat /\
  String.length "Invalid Access Token" = 20%nat.
Proof. split; vm_compute; reflexivity. Qed.

(** ** Splitting *)

Section SplitFacts.

Variable sep : ascii.

Lemma Cut_None s : Strings.Cut s sep = None <-> Strings.Count s sep = O.
Proof.
  induction s as [|c s IH]; simpl; [tauto|].
  destruct (Ascii.eqb c sep); [split; discriminate|].
  destruct (Strings.Cut s sep) as [[before after]|].
  - split; [discriminate|]. intros H. apply IH in H. discriminate.
  - split; [intros _; now apply IH | reflexivity].
Qed.

(** A successful cut takes the string apart at its first separator. *)
Lemma Cut_Some s before after :
  Strings.Cut s sep = Some (before, after) <->
  s = (before ++ String sep after)%string /\ Strings.Count before sep = O.
Proof.
  revert before after.
  induction s as [|c s IH]; intros before after; simpl.
  - split; [discriminate|]. intros [H _]. destruct before; discriminate.
  - destruct (Ascii.eqb_spec c sep) as [->|Hne].
    + split.
      * intros [= <- <-]. split; reflexivity.
      * intros [H Hc]. destruct before as [|b before]; simpl in *.
        -- now inversion H.
        -- inversion H; subst b. rewrite Ascii.eqb_refl in Hc. discriminate.
    + destruct (Strings.Cut s sep) as [[b a]|] eqn:E.
      * split.
        -- intros [= <- <-]. destruct (proj1 (IH b a) eq_refl) as [-> Hc].
           split; [reflexivity|]. simpl.
           destruct (Ascii.eqb_spec c sep); [contradiction|exact Hc].
        -- intros [H Hc]. destruct before as [|b' before]; simpl in *.
           ++ inversion H; contradiction.
           ++ inversion H; subst b' s.
              destruct (Ascii.eqb_spec c sep); [discriminate|].
              assert (Some (b, a) = Some (before, after)) as [= -> ->]
                by (apply IH; split; [reflexivity|exact Hc]).
              reflexivity.
      * split; [discriminate|]. intros [H Hc].
        destruct before as [|b' before]; simpl in *.
        -- inversion H; contradiction.
        -- inversion H; subst b' s.
           destruct (Ascii.eqb_spec c sep); [discriminate|].
           assert (None = Some (before, after)) as [=]
             by (apply IH; split; [reflexivity|exact Hc]).
Qed.

Lemma Cut_append before after :
  Strings.Count before sep = O ->
  Strings.Cut (before ++ String sep after) sep = Some (before, after).
Proof. intros H. apply Cut_Some. split; [reflexivity|exact H]. Qed.

Lemma Count_append s t :
  Strings.Count (s ++ t) sep = (Strings.Count s sep + Strings.Count t sep)%nat.
Proof.
  induction s as [|c s IH]; simpl; [reflexivity|].
  destruct (Ascii.eqb c sep); simpl; now rewrite IH.
Qed.

(** The number of fields is one more than the number of separators
    consumed. *)
Lemma genSplit_length s cuts :
  List.length (Strings.genSplit s sep cuts)
  = S (Nat.min cuts (Strings.Count s sep)).
Proof.
  revert s. induction cuts as [|k IH]; intros s; simpl; [reflexivity|].
  destruct (Strings.Cut s sep) as [[before after]|] eqn:E.
  - apply Cut_Some in E as [-> Hc]. simpl. rewrite IH, Count_append, Hc.
    simpl. rewrite Ascii.eqb_refl. reflexivity.
  - apply Cut_None in E. rewrite E. simpl. reflexivity.
Qed.

Lemma Split_length s :
  List.length (Strings.Split s sep) = S (Strings.Count s sep).
Proof.
  unfold Strings.Split, Strings.SplitN. simpl.
  rewrite genSplit_length, Nat.min_id. reflexivity.
Qed.

(** Exactly two fields: one separator, and the fields are what is on
    either side of it. *)
Lemma Split_two s u p :
  Strings.Split s sep = [u; p] <->
  s = (u ++ String sep p)%string /\
  Strings.Count u sep = O /\ Strings.Count p sep = O.
Proof.
  split.
  - intros H. pose proof (Split_length s) as L. rewrite H in L. simpl in L.
    injection L as L. revert H. unfold Strings.Split, Strings.SplitN.
    simpl. rewrite <- L. simpl.
    destruct (Strings.Cut s sep) as [[before after]|] eqn:E; [|discriminate].
    intros [= -> ->]. apply Cut_Some in E as [-> Hu].
    rewrite Count_append, Hu in L. simpl in L.
    rewrite Ascii.eqb_refl in L. injection L as L. auto.
  - intros (-> & Hu & Hp). unfold Strings.Split, Strings.SplitN. simpl.
    rewrite Count_append, Hu. simpl. rewrite Ascii.eqb_refl, Hp. simpl.
    rewrite Cut_append by exact Hu. reflexivity.
Qed.

(** [SplitN(s, sep, 2)] is a single cut. *)
Lemma SplitN_2 s :
  Strings.SplitN s sep 2 =
  match Strings.Cut s sep with
  | Some (before, after) => [before; after]
  | None => [s]
  end.
Proof.
  unfold Strings.SplitN. simpl.
  destruct (Strings.Cut s sep) as [[before after]|]; reflexivity.
Qed.

End SplitFacts.


(** ** The standard encoding: decoding undoes encoding *)

Lemma uint_range c : 0 <= Base64.uint c < 256.
Proof. unfold Base64.uint. pose proof (N_ascii_bounded c). lia. Qed.

Lemma lor_add q lo k :
  0 <= k -> 0 <= lo < 2 ^ k -> Z.lor (q * 2 ^ k) lo = q * 2 ^ k + lo.
Proof.
  intros Hk Hlo.
  assert (Z.land (q * 2 ^ k) lo = 0) as H.
  { apply Z.bits_inj'. intros n Hn. rewrite Z.land_spec, Z.bits_0.
    destruct (Z.lt_ge_cases n k) as [Hlt|Hge].
    - rewrite Z.mul_pow2_bits_low by lia. reflexivity.
    - destruct (Z.eq_dec lo 0) as [->|Hne]; [now rewrite Z.bits_0, andb_false_r|].
      rewrite (Z.bits_above_log2 lo n); [apply andb_false_r|lia|].
      apply Z.log2_lt_pow2; [lia|].
      apply Z.lt_le_trans with (2 ^ k); [lia|]. apply Z.pow_le_mono_r; lia. }
  rewrite <- Z.lxor_lor by exact H. symmetry. now apply Z.add_nocarry_lxor.
Qed.

Lemma decodeMap_encode v : Base64.decodeMap (Base64.encode v) = Z.land v 63.
Proof.
  unfold Base64.encode.
  assert (0 <= Z.land v 63 < 64) as H.
  { change 63 with (Z.ones 6). rewrite Z.land_ones by lia. apply Z.mod_pos_bound. lia. }
  generalize dependent (Z.land v 63). intros d Hd.
  rewrite <- (Z2Nat.id d) by lia.
  assert (Z.to_nat d < 64)%nat as Hn by lia.
  generalize dependent (Z.to_nat d). clear. intros n Hn.
  do 64 (destruct n as [|n]; [vm_compute; reflexivity|]). lia.
Qed.

Lemma byte_mod v c : v mod 256 = Base64.uint c -> Base64.byte v = c.
Proof.
  intros H. unfold Base64.byte. change 255 with (Z.ones 8).
  rewrite Z.land_ones by lia. change (2 ^ 8) with 256. rewrite H.
  unfold Base64.uint. rewrite N2Z.id. apply ascii_N_embedding.
Qed.

Lemma sextet_range v : 0 <= Z.land v 63 < 64.
Proof.
  change 63 with (Z.ones 6). rewrite Z.land_ones by lia.
  apply Z.mod_pos_bound. lia.
Qed.

Lemma assemble d0 d1 d2 d3 :
  0 <= d1 < 64 -> 0 <= d2 < 64 -> 0 <= d3 < 64 ->
  Z.lor (Z.lor (Z.lor (Z.shiftl d0 18) (Z.shiftl d1 12)) (Z.shiftl d2 6)) d3
  = d0 * 262144 + d1 * 4096 + d2 * 64 + d3.
Proof.
  intros H1 H2 H3. rewrite !Z.shiftl_mul_pow2 by lia.
  rewrite (lor_add d0 (d1 * 2 ^ 12) 18) by lia.
  replace (d0 * 2 ^ 18 + d1 * 2 ^ 12) with ((d0 * 64 + d1) * 2 ^ 12) by lia.
  rewrite (lor_add _ (d2 * 2 ^ 6) 12) by lia.
  replace ((d0 * 64 + d1) * 2 ^ 12 + d2 * 2 ^ 6)
    with ((d0 * 4096 + d1 * 64 + d2) * 2 ^ 6) by lia.
  rewrite (lor_add _ d3 6) by lia. lia.
Qed.

Lemma pack3 a b c :
  Z.lor (Z.lor (Z.shiftl (Base64.uint a) 16) (Z.shiftl (Base64.uint b) 8))
    (Base64.uint c)
  = Base64.uint a * 65536 + Base64.uint b * 256 + Base64.uint c.
Proof.
  pose proof (uint_range a). pose proof (uint_range b). pose proof (uint_range c).
  rewrite !Z.shiftl_mul_pow2 by lia.
  rewrite (lor_add (Base64.uint a) (Base64.uint b * 2 ^ 8) 16) by lia.
  replace (Base64.uint a * 2 ^ 16 + Base64.uint b * 2 ^ 8)
    with ((Base64.uint a * 256 + Base64.uint b) * 2 ^ 8) by lia.
  rewrite (lor_add _ (Base64.uint c) 8) by lia. lia.
Qed.

Lemma quantum_bytes d0 d1 d2 d3 a b c :
  0 <= d0 < 64 -> 0 <= d1 < 64 -> 0 <= d2 < 64 -> 0 <= d3 < 64 ->
  d0 * 262144 + d1 * 4096 + d2 * 64 + d3
  = Base64.uint a * 65536 + Base64.uint b * 256 + Base64.uint c ->
  Base64.quantum [d0; d1; d2; d3] = String a (String b (String c EmptyString)) /\
  Base64.quantum [d0; d1; d2] = String a (String b EmptyString) /\
  Base64.quantum [d0; d1] = String a EmptyString.
Proof.
  intros H0 H1 H2 H3 E.
  pose proof (uint_range a). pose proof (uint_range b). pose proof (uint_range c).
  unfold Base64.quantum.
  cbn [nth List.length Nat.pred firstn string_of_list_ascii].
  rewrite (assemble d0 d1 d2 d3), (assemble d0 d1 d2 0), (assemble d0 d1 0 0)
    by lia.
  rewrite !Z.shiftr_div_pow2 by lia.
  change (2 ^ 16) with 65536. change (2 ^ 8) with 256.
  repeat split; repeat f_equal; apply byte_mod;
    Z.to_euclidean_division_equations; lia.
Qed.

Lemma sextets_sum v :
  0 <= v < 16777216 ->
  Z.land (Z.shiftr v 18) 63 * 262144 + Z.land (Z.shiftr v 12) 63 * 4096
  + Z.land (Z.shiftr v 6) 63 * 64 + Z.land v 63 = v.
Proof.
  intros Hv. change 63 with (Z.ones 6).
  rewrite !Z.land_ones, !Z.shiftr_div_pow2 by lia.
  change (2 ^ 6) with 64. change (2 ^ 12) with 4096. change (2 ^ 18) with 262144.
  Z.to_euclidean_division_equations. lia.
Qed.

Lemma decode_alphabet c rest dbuf :
  0 <= Base64.decodeMap c < 64 ->
  Base64.decode (String c rest) dbuf =
  if (List.length (dbuf ++ [Base64.decodeMap c])%list =? 4)%nat
  then option_map (String.append (Base64.quantum (dbuf ++ [Base64.decodeMap c])%list))
         (Base64.decode rest [])
  else Base64.decode rest (dbuf ++ [Base64.decodeMap c])%list.
Proof.
  intros H. cbn [Base64.decode].
  destruct (Z.eqb_spec (Base64.decodeMap c) 255) as [E|E]; [lia|reflexivity].
Qed.

Lemma decode_encoded v rest dbuf :
  Base64.decode (String (Base64.encode v) rest) dbuf =
  if (List.length (dbuf ++ [Z.land v 63])%list =? 4)%nat
  then option_map (String.append (Base64.quantum (dbuf ++ [Z.land v 63])%list))
         (Base64.decode rest [])
  else Base64.decode rest (dbuf ++ [Z.land v 63])%list.
Proof.
  rewrite decode_alphabet; rewrite decodeMap_encode;
    [reflexivity | apply sextet_range].
Qed.

Lemma decode_encoded_next v rest dbuf :
  (List.length dbuf < 3)%nat ->
  Base64.decode (String (Base64.encode v) rest) dbuf
  = Base64.decode rest (dbuf ++ [Z.land v 63])%list.
Proof.
  intros H. rewrite decode_encoded.
  destruct dbuf as [|d0 [|d1 [|d2 dbuf]]]; try reflexivity. simpl in H. lia.
Qed.

Lemma decode_encoded_last v rest d0 d1 d2 :
  Base64.decode (String (Base64.encode v) rest) [d0; d1; d2]
  = option_map (String.append (Base64.quantum [d0; d1; d2; Z.land v 63]))
      (Base64.decode rest []).
Proof. rewrite decode_encoded. reflexivity. Qed.

Lemma string_by_threes (P : string -> Prop) :
  P EmptyString ->
  (forall a, P (String a EmptyString)) ->
  (forall a b, P (String a (String b EmptyString))) ->
  (forall a b c rest, P rest -> P (String a (String b (String c rest)))) ->
  forall s, P s.
Proof.
  intros H0 H1 H2 H3 s.
  enough (P s /\ (forall a, P (String a s)) /\ (forall a b, P (String a (String b s))))
    by tauto.
  induction s as [|c s (IH0 & IH1 & IH2)]; auto.
Qed.

Lemma quantum_sextets v a b c :
  v = Base64.uint a * 65536 + Base64.uint b * 256 + Base64.uint c ->
  Base64.quantum [Z.land (Z.shiftr v 18) 63; Z.land (Z.shiftr v 12) 63;
                  Z.land (Z.shiftr v 6) 63; Z.land v 63]
  = String a (String b (String c EmptyString)) /\
  Base64.quantum [Z.land (Z.shiftr v 18) 63; Z.land (Z.shiftr v 12) 63;
                  Z.land (Z.shiftr v 6) 63]
  = String a (String b EmptyString) /\
  Base64.quantum [Z.land (Z.shiftr v 18) 63; Z.land (Z.shiftr v 12) 63]
  = String a EmptyString.
Proof.
  intros E.
  pose proof (uint_range a). pose proof (uint_range b). pose proof (uint_range c).
  apply (quantum_bytes _ _ _ (Z.land v 63)); try apply sextet_range.
  rewrite sextets_sum by lia. exact E.
Qed.

Lemma pack2 a b :
  Z.lor (Z.shiftl (Base64.uint a) 16) (Z.shiftl (Base64.uint b) 8)
  = Base64.uint a * 65536 + Base64.uint b * 256 + Base64.uint "000"%char.
Proof.
  rewrite <- (Z.lor_0_r (Z.lor _ _)). apply (pack3 a b "000"%char).
Qed.

Lemma pack1 a :
  Z.shiftl (Base64.uint a) 16
  = Base64.uint a * 65536 + Base64.uint "000"%char * 256
    + Base64.uint "000"%char.
Proof.
  rewrite Z.shiftl_mul_pow2 by lia. change (Base64.uint "000"%char) with 0. lia.
Qed.

Lemma decode_padding2 d0 d1 :
  Base64.decode (String Base64.padChar (String Base64.padChar EmptyString)) [d0; d1]
  = Some (Base64.quantum [d0; d1]).
Proof. reflexivity. Qed.

Lemma decode_padding1 d0 d1 d2 :
  Base64.decode (String Base64.padChar EmptyString) [d0; d1; d2]
  = Some (Base64.quantum [d0; d1; d2]).
Proof. reflexivity. Qed.

Theorem DecodeString_EncodeToString s :
  Base64.DecodeString (Base64.EncodeToString s) = Some s.
Proof.
  unfold Base64.DecodeString.
  induction s as [|a|a b|a b c rest IH] using string_by_threes.
  - reflexivity.
  - cbn [Base64.EncodeToString].
    rewrite !decode_encoded_next by (simpl; lia). simpl (_ ++ _)%list.
    destruct (quantum_sextets _ _ _ _ (pack1 a)) as (_ & _ & E).
    rewrite decode_padding2, E. reflexivity.
  - cbn [Base64.EncodeToString].
    rewrite !decode_encoded_next by (simpl; lia). simpl (_ ++ _)%list.
    destruct (quantum_sextets _ _ _ _ (pack2 a b)) as (_ & E & _).
    rewrite decode_padding1, E. reflexivity.
  - cbn [Base64.EncodeToString].
    rewrite !decode_encoded_next by (simpl; lia). simpl (_ ++ _)%list.
    rewrite decode_encoded_last, IH. cbn [option_map].
    destruct (quantum_sextets _ _ _ _ (pack3 a b c)) as (E & _ & _).
    rewrite E. reflexivity.
Qed.

(** ** Reading the header *)

Lemma Parse_Cut value :
  Parse value =
  match Strings.Cut value " "%char with
  | Some (scheme, credentials) => (scheme, credentials, None)
  | None => ("", "", Some "The authorization header is malformed.")
  end.
Proof.
  unfold Parse. rewrite SplitN_2.
  destruct (Strings.Cut value " "%char) as [[scheme credentials]|]; reflexivity.
Qed.

Lemma Parse_scheme scheme credentials :
  Strings.Count scheme " "%char = O ->
  Parse (scheme ++ String " "%char credentials) = (scheme, credentials, None).
Proof. intros H. rewrite Parse_Cut, Cut_append by exact H. reflexivity. Qed.

(** A header value that does not split in two has no scheme. *)
Lemma Parse_malformed value :
  List.length (Strings.SplitN value " "%char 2) <> 2%nat ->
  Parse value = ("", "", Some "The authorization header is malformed.").
Proof.
  intros H. rewrite Parse_Cut. rewrite SplitN_2 in H.
  destruct (Strings.Cut value " "%char) as [[scheme credentials]|];
    [now contradiction H | reflexivity].
Qed.

Lemma ParseRequest_first r value more :
  Header r !! "Authorization" = Some (value :: more) ->
  ParseRequest r = Parse value.
Proof. intros H. unfold ParseRequest. now rewrite H. Qed.

Lemma ParseRequest_unset r :
  Header r !! "Authorization" = None \/ Header r !! "Authorization" = Some [] ->
  ParseRequest r = ("", "", Some "The authorization header is not set.").
Proof. intros [H|H]; unfold ParseRequest; now rewrite H. Qed.

(** ** Reading the form *)

Lemma ParseForm_idempotent r : ParseForm (ParseForm r) = ParseForm r.
Proof. reflexivity. Qed.

Lemma Form_ParseForm r : is_Some (Form (ParseForm r)).
Proof. unfold ParseForm; simpl. eauto. Qed.

(** The code's test on [req.Form], in the words of [has_access_token]. *)
Lemma FormValue_first r tok :
  (exists vs, FormValue (ParseForm r) "access_token" = tok :: vs)
  <-> has_access_token r tok.
Proof.
  unfold has_access_token, FormValue.
  destruct (Form (ParseForm r)) as [f|] eqn:E.
  - split.
    + intros [vs H]. exists f.
      destruct (f !! "access_token") as [l|] eqn:L; simpl in H;
        [subst l; eauto | discriminate].
    + intros (f' & vs & [= <-] & L). exists vs. now rewrite L.
  - split; [intros [vs H]; discriminate | intros (f & vs & H & _); discriminate].
Qed.

Lemma classic_access_token r tok :
  has_access_token r tok \/ ~ has_access_token r tok.
Proof.
  destruct (FormValue (ParseForm r) "access_token") as [|first more] eqn:E.
  - right. intros H. apply FormValue_first in H as [vs H]. congruence.
  - destruct (String.eqb_spec first tok) as [->|Hne].
    + left. apply FormValue_first. eauto.
    + right. intros H. apply FormValue_first in H as [vs H]. congruence.
Qed.

Section GateFacts.

Context {Response : Type}.
Implicit Types (handler : AuthHandler Response) (req : Request).

(** The three branches of the switch. *)
Lemma authorize_Bearer handler req credentials err :
  ParseRequest req = ("Bearer", credentials, err) ->
  authorize handler req =
  if String.eqb credentials (token handler)
  then Returns (false, "", req)
  else Returns (true, "Invalid Access Token", req).
Proof.
  intros H. unfold authorize. rewrite H. simpl.
  destruct (String.eqb credentials (token handler)); reflexivity.
Qed.

Lemma authorize_Basic handler req credentials err :
  ParseRequest req = ("Basic", credentials, err) ->
  authorize handler req =
  match NewBasic credentials with
  | (Some b, perr) =>
      if String.eqb (Password b) (token handler)
      then Returns (match perr with
                    | Some _ => (true, "Malformed Basic Authorization crdentials")
                    | None => (false, "")
                    end, req)
      else Returns (true, "Invalid credentials", req)
  | (None, _) => Panics
  end.
Proof.
  intros H. unfold authorize. rewrite H. simpl.
  destruct (NewBasic credentials) as [[b|] [e|]]; simpl; try reflexivity;
    destruct (String.eqb (Password b) (token handler)); reflexivity.
Qed.

Lemma authorize_default handler req scheme credentials err :
  ParseRequest req = (scheme, credentials, err) ->
  scheme <> "Bearer" -> scheme <> "Basic" ->
  authorize handler req =
  match FormValue (ParseForm req) "access_token" with
  | first :: _ =>
      if String.eqb first (token handler)
      then Returns (false, "", ParseForm req)
      else Returns (true, "Mising or invalid access_token", ParseForm req)
  | [] => Returns (true, "Mising or invalid access_token", ParseForm req)
  end.
Proof.
  intros H Hbearer Hbasic. unfold authorize. rewrite H.
  apply String.eqb_neq in Hbearer, Hbasic. rewrite Hbearer, Hbasic.
  destruct (FormValue (ParseForm req) "access_token") as [|first more];
    [reflexivity|].
  destruct (String.eqb first (token handler)); reflexivity.
Qed.

(** The access_token rule, as [ServeHTTP] shows it. *)
Lemma ServeHTTP_default handler req scheme credentials err :
  ParseRequest req = (scheme, credentials, err) ->
  scheme <> "Bearer" -> scheme <> "Basic" ->
  (has_access_token req (token handler) ->
   ServeHTTP handler req = Forwarded (app handler (ParseForm req))) /\
  (~ has_access_token req (token handler) ->
   ServeHTTP handler req =
   Unauthorized ["Unauthorised:"; "Mising or invalid access_token"]
     (Fprintln "Mising or invalid access_token") 401).
Proof.
  intros H Hbearer Hbasic. unfold ServeHTTP.
  rewrite (authorize_default _ _ _ _ _ H Hbearer Hbasic).
  split.
  - intros Ht. apply FormValue_first in Ht as [vs ->].
    now rewrite String.eqb_refl.
  - intros Hn.
    destruct (FormValue (ParseForm req) "access_token") as [|first more] eqn:E;
      [reflexivity|].
    destruct (String.eqb_spec first (token handler)) as [->|Hne]; [|reflexivity].
    contradiction Hn. apply FormValue_first. eauto.
Qed.

End GateFacts.

(** ** What the decision depends on *)

(** The decision reads the token, the parsed header and the values of
    "access_token" after [ParseForm], and nothing else. *)
Lemma decision_reads {R1 R2 : Type}
  (h1 : AuthHandler R1) (h2 : AuthHandler R2) (r1 r2 : Request) :
  token h1 = token h2 ->
  ParseRequest r1 = ParseRequest r2 ->
  FormValue (ParseForm r1) "access_token" = FormValue (ParseForm r2) "access_token" ->
  decision h1 r1 = decision h2 r2.
Proof.
  intros Ht Hp Hf. unfold decision, authorize. rewrite Ht, Hp, Hf.
  destruct (ParseRequest r2) as [[scheme credentials] err].
  destruct (String.eqb scheme "Bearer").
  - destruct (negb (String.eqb credentials (token h2))); reflexivity.
  - destruct (String.eqb scheme "Basic").
    + destruct (NewBasic credentials) as [[b|] [e|]]; try reflexivity;
        destruct (negb (String.eqb (Password b) (token h2))); reflexivity.
    + destruct (FormValue (ParseForm r2) "access_token") as [|first more];
        [reflexivity|].
      destruct (negb (String.eqb first (token h2))); reflexivity.
Qed.

(** One call leaves the header alone and the form parsed at most once. *)
Lemma requestAfter_cases {Response : Type}
  (handler : AuthHandler Response) (req : Request) :
  requestAfter handler req = req \/ requestAfter handler req = ParseForm req.
Proof.
  unfold requestAfter, authorize.
  destruct (ParseRequest req) as [[scheme credentials] err].
  destruct (String.eqb scheme "Bearer").
  - destruct (negb (String.eqb credentials (token handler))); auto.
  - destruct (String.eqb scheme "Basic").
    + destruct (NewBasic credentials) as [[b|] [e|]]; auto;
        destruct (negb (String.eqb (Password b) (token handler))); auto.
    + destruct (FormValue (ParseForm req) "access_token") as [|first more];
        auto.
      destruct (negb (String.eqb first (token handler))); auto.
Qed.

Lemma requestAfter_iter {Response : Type}
  (handler : AuthHandler Response) (req : Request) (n : nat) :
  Header (Nat.iter n (requestAfter handler) req) = Header req /\
  Form (ParseForm (Nat.iter n (requestAfter handler) req)) = Form (ParseForm req).
Proof.
  induction n as [|n [IHh IHf]]; simpl; [auto|].
  destruct (requestAfter_cases handler (Nat.iter n (requestAfter handler) req))
    as [-> | ->]; auto.
Qed.

(** ** The decoder of the Basic scheme *)

Lemma NewBasic_fails credentials :
  NewBasic credentials = (None, Some "The basic authentication header is malformed.")
  <-> (Base64.DecodeString credentials = None \/
       exists txt, Base64.DecodeString credentials = Some txt /\
                   List.length (Strings.Split txt ":"%char) <> 2%nat).
Proof.
  unfold NewBasic.
  destruct (Base64.DecodeString credentials) as [txt|]; [|tauto].
  destruct (Strings.Split txt ":"%char) as [|a [|b [|c l]]] eqn:E; simpl.
  - split; [intros _; right; exists txt; rewrite E; simpl; auto | reflexivity].
  - split; [intros _; right; exists txt; rewrite E; simpl; auto | reflexivity].
  - split; [discriminate|].
    intros [H | (txt' & [= <-] & H)]; [discriminate|].
    rewrite E in H. now contradiction H.
  - split; [intros _; right; exists txt; rewrite E; simpl; auto | reflexivity].
Qed.

Lemma NewBasic_succeeds credentials user pass :
  NewBasic credentials = (Some (mkBasic user pass), None)
  <-> exists txt, Base64.DecodeString credentials = Some txt /\
                  Strings.Split txt ":"%char = [user; pass].
Proof.
  unfold NewBasic.
  destruct (Base64.DecodeString credentials) as [txt|].
  - destruct (Strings.Split txt ":"%char) as [|a [|b [|c l]]] eqn:E; simpl.
    + split; [discriminate | intros (t & [= <-] & H); congruence].
    + split; [discriminate | intros (t & [= <-] & H); congruence].
    + split; [intros [= -> ->]; eauto | intros (t & [= <-] & H); congruence].
    + split; [discriminate | intros (t & [= <-] & H); congruence].
  - split; [discriminate | intros (t & H & _); discriminate].
Qed.

(** A password with a colon in it cannot be presented through the Basic
    scheme: its encoding decodes to more than two fields. *)
Lemma NewBasic_colon_in_password user pass :
  Strings.Count pass ":"%char <> O ->
  NewBasic (Base64.EncodeToString (user ++ ":" ++ pass))
  = (None, Some "The basic authentication header is malformed.").
Proof.
  intros H. apply NewBasic_fails. right. exists (user ++ ":" ++ pass).
  split; [apply DecodeString_EncodeToString|].
  rewrite Split_length, Count_append.
  change (":" ++ pass) with (String ":" pass). simpl. lia.
Qed.

Section BasicFacts.

Context {Response : Type}.
Implicit Types (handler : AuthHandler Response) (req : Request).

(** The Basic branch once [NewBasic] has succeeded. *)
Lemma ServeHTTP_Basic handler req b64 user pass more :
  Header req !! "Authorization" = Some (("Basic " ++ b64) :: more) ->
  NewBasic b64 = (Some (mkBasic user pass), None) ->
  ServeHTTP handler req =
  if String.eqb pass (token handler)
  then Forwarded (app handler req)
  else Unauthorized ["Unauthorised:"; "Invalid credentials"]
         (Fprintln "Invalid credentials") 401.
Proof.
  intros Hh Hb.
  assert (ParseRequest req = ("Basic", b64, None)) as Hp.
  { rewrite (ParseRequest_first _ _ _ Hh).
    apply (Parse_scheme "Basic"). reflexivity. }
  unfold ServeHTTP. rewrite (authorize_Basic _ _ _ _ Hp), Hb. simpl.
  destruct (String.eqb pass (token handler)); reflexivity.
Qed.

(** X14.  The same for the header a client builds from a user and a
    password, "Basic " and the standard encoding of "user:pass": with no
    colon in either, the request is forwarded when the password is the
    token and answered 401 "Invalid credentials" otherwise. *)
Lemma ServeHTTP_Basic_encoded handler req user pass more :
  Header req !! "Authorization"
  = Some (("Basic " ++ Base64.EncodeToString (user ++ ":" ++ pass)) :: more) ->
  Strings.Count user ":"%char = O ->
  Strings.Count pass ":"%char = O ->
  ServeHTTP handler req =
  if String.eqb pass (token handler)
  then Forwarded (app handler req)
  else Unauthorized ["Unauthorised:"; "Invalid credentials"]
         (Fprintln "Invalid credentials") 401.
Proof.
  intros Hh Hu Hp. apply (ServeHTTP_Basic _ _ _ user pass _ Hh).
  apply NewBasic_succeeds. exists (user ++ ":" ++ pass).
  split; [apply DecodeString_EncodeToString|]. apply Split_two. auto.
Qed.

End BasicFacts.

(** * The claims *)

(** C1 (the code departs from it).  A request whose first Authorization
    value is "Basic " followed by credentials that are not valid base64, or
    whose decoded text does not split on ':' into exactly two fields, is
    not answered at all: [NewBasic] returns a nil pointer with its error,
    [authorize] records the reason and then reads [basic.Password], and the
    call panics.  Nothing is forwarded, and no 401 is written. *)
Theorem malformed_Basic_panics {Response : Type}
  (handler : AuthHandler Response) (req : Request)
  (credentials : string) (more : list string) :
  Header req !! "Authorization" = Some (("Basic " ++ credentials) :: more) ->
  (Base64.DecodeString credentials = None \/
   exists txt, Base64.DecodeString credentials = Some txt /\
               List.length (Strings.Split txt ":"%char) <> 2%nat) ->
  authorize handler req = Panics /\ ServeHTTP handler req = Panicked.
Proof.
  intros Hh Hbad. apply NewBasic_fails in Hbad.
  assert (ParseRequest req = ("Basic", credentials, None)) as Hp.
  { rewrite (ParseRequest_first _ _ _ Hh).
    apply (Parse_scheme "Basic"). reflexivity. }
  assert (authorize handler req = Panics) as Ha.
  { rewrite (authorize_Basic _ _ _ _ Hp), Hbad. reflexivity. }
  split; [exact Ha|]. unfold ServeHTTP. now rewrite Ha.
Qed.

Lemma malformed_Basic_panics_witness :
  (Header (basicRequest "!!!") !! "Authorization" = Some ["Basic !!!"] /\
   Base64.DecodeString "!!!" = None) /\
  authorize echo (basicRequest "!!!") = Panics /\
  ServeHTTP echo (basicRequest "!!!") = Panicked.
Proof.
  split.
  - split; vm_compute; reflexivity.
  - apply (malformed_Basic_panics echo _ "!!!" []).
    + vm_compute; reflexivity.
    + left. vm_compute; reflexivity.
Defined.

(** C2, as amended.  When the first Authorization value does not split on
    its first space into two parts, [Parse] reports "The authorization
    header is malformed.", but [authorize] drops that error: the scheme is
    empty and the request is decided by the access_token rule. *)
Theorem malformed_header_falls_through {Response : Type}
  (handler : AuthHandler Response) (req : Request)
  (value : string) (more : list string) :
  Header req !! "Authorization" = Some (value :: more) ->
  List.length (Strings.SplitN value " "%char 2) <> 2%nat ->
  ParseRequest req = ("", "", Some "The authorization header is malformed.") /\
  (has_access_token req (token handler) ->
   ServeHTTP handler req = Forwarded (app handler (ParseForm req))) /\
  (~ has_access_token req (token handler) ->
   ServeHTTP handler req =
   Unauthorized ["Unauthorised:"; "Mising or invalid access_token"]
     (Fprintln "Mising or invalid access_token") 401).
Proof.
  intros Hh Hbad.
  assert (ParseRequest req
          = ("", "", Some "The authorization header is malformed.")) as Hp.
  { rewrite (ParseRequest_first _ _ _ Hh). now apply Parse_malformed. }
  split; [exact Hp|].
  apply (ServeHTTP_default handler req _ _ _ Hp); discriminate.
Qed.

Lemma malformed_header_falls_through_witness :
  (Header (queryRequest {[ "Authorization" := ["Bearer"] ]} "s3cr3t")
     !! "Authorization" = Some ["Bearer"] /\
   List.length (Strings.SplitN "Bearer" " "%char 2) <> 2%nat /\
   has_access_token (queryRequest {[ "Authorization" := ["Bearer"] ]} "s3cr3t")
     "s3cr3t") /\
  ServeHTTP echo (queryRequest {[ "Authorization" := ["Bearer"] ]} "s3cr3t")
  = Forwarded (ParseForm (queryRequest {[ "Authorization" := ["Bearer"] ]} "s3cr3t")).
Proof.
  assert (has_access_token
            (queryRequest {[ "Authorization" := ["Bearer"] ]} "s3cr3t") "s3cr3t")
    as Ht by (exists {[ "access_token" := ["s3cr3t"] ]}, []; split;
              vm_compute; reflexivity).
  split.
  - split; [vm_compute; reflexivity|]. split; [vm_compute; lia | exact Ht].
  - apply (malformed_header_falls_through echo _ "Bearer" []);
      [vm_compute; reflexivity | vm_compute; lia | exact Ht].
Defined.

(** C2, as the spec states it, fails: this request has a non-empty
    Authorization value without a space, and it is forwarded on the
    strength of its access_token parameter, not rejected. *)
Lemma malformed_header_is_forwarded :
  Header (queryRequest {[ "Authorization" := ["Bearer"] ]} "s3cr3t")
    !! "Authorization" = Some ["Bearer"] /\
  List.length (Strings.SplitN "Bearer" " "%char 2) <> 2%nat /\
  ServeHTTP echo (queryRequest {[ "Authorization" := ["Bearer"] ]} "s3cr3t")
  = Forwarded (ParseForm (queryRequest {[ "Authorization" := ["Bearer"] ]} "s3cr3t")) /\
  ~ (exists logged body code,
        ServeHTTP echo (queryRequest {[ "Authorization" := ["Bearer"] ]} "s3cr3t")
        = Unauthorized logged body code).
Proof.
  split; [vm_compute; reflexivity|].
  split; [vm_compute; lia|].
  assert (ServeHTTP echo (queryRequest {[ "Authorization" := ["Bearer"] ]} "s3cr3t")
          = Forwarded (ParseForm (queryRequest {[ "Authorization" := ["Bearer"] ]} "s3cr3t")))
    as H by (vm_compute; reflexivity).
  split; [exact H|].
  intros (logged & body & code & H'). rewrite H in H'. discriminate.
Qed.

(** C3, as amended.  With "Authorization: Bearer C" as the first
    Authorization value: when C is the token the request goes to the
    decorated handler as it came in, and otherwise the answer is 401 with
    the body "Invalid Access Token" followed by a line feed. *)
Theorem Bearer_token {Response : Type}
  (handler : AuthHandler Response) (req : Request)
  (C : string) (more : list string) :
  Header req !! "Authorization" = Some (("Bearer " ++ C) :: more) ->
  (C = token handler ->
   ServeHTTP handler req = Forwarded (app handler req)) /\
  (C <> token handler ->
   ServeHTTP handler req =
   Unauthorized ["Unauthorised:"; "Invalid Access Token"]
     (Fprintln "Invalid Access Token") 401).
Proof.
  intros Hh.
  assert (ParseRequest req = ("Bearer", C, None)) as Hp.
  { rewrite (ParseRequest_first _ _ _ Hh).
    apply (Parse_scheme "Bearer"). reflexivity. }
  unfold ServeHTTP. rewrite (authorize_Bearer _ _ _ _ Hp).
  split; intros HC.
  - subst C. now rewrite String.eqb_refl.
  - apply String.eqb_neq in HC. now rewrite HC.
Qed.

Lemma Bearer_token_witness :
  (Header (bearerRequest "s3cr3t") !! "Authorization" = Some ["Bearer s3cr3t"] /\
   "s3cr3t" = token echo) /\
  ServeHTTP echo (bearerRequest "s3cr3t") = Forwarded (bearerRequest "s3cr3t").
Proof.
  split.
  - split; vm_compute; reflexivity.
  - apply (Bearer_token echo (bearerRequest "s3cr3t") "s3cr3t" []);
      vm_compute; reflexivity.
Defined.

(** C3, as the spec states it, fails on the body: [http.Error] ends it
    with a line feed, so it is not exactly "Invalid Access Token". *)
Lemma Bearer_body_is_not_the_bare_reason :
  Header (bearerRequest "wrong") !! "Authorization" = Some ["Bearer wrong"] /\
  "wrong" <> token echo /\
  ServeHTTP echo (bearerRequest "wrong")
  = Unauthorized ["Unauthorised:"; "Invalid Access Token"]
      ("Invalid Access Token" ++ String "010"%char EmptyString) 401 /\
  ~ (exists logged code,
        ServeHTTP echo (bearerRequest "wrong")
        = Unauthorized logged "Invalid Access Token" code).
Proof.
  split; [vm_compute; reflexivity|].
  split; [discriminate|].
  assert (ServeHTTP echo (bearerRequest "wrong")
          = Unauthorized ["Unauthorised:"; "Invalid Access Token"]
              ("Invalid Access Token" ++ String "010"%char EmptyString) 401)
    as H by (vm_compute; reflexivity).
  split; [exact H|].
  intros (logged & code & H'). rewrite H in H'.
  injection H' as _ Hbody _. vm_compute in Hbody. discriminate Hbody.
Qed.

(** C4, as amended.  With "Authorization: Basic b64" where b64 decodes to
    "u:p" with a single colon: when p is the token the request is
    forwarded, whatever u is; otherwise the answer is 401 with the body
    "Invalid credentials" followed by a line feed. *)
Theorem Basic_password {Response : Type}
  (handler : AuthHandler Response) (req : Request)
  (b64 u p : string) (more : list string) :
  Header req !! "Authorization" = Some (("Basic " ++ b64) :: more) ->
  Base64.DecodeString b64 = Some (u ++ ":" ++ p) ->
  Strings.Count u ":"%char = O ->
  Strings.Count p ":"%char = O ->
  (p = token handler ->
   ServeHTTP handler req = Forwarded (app handler req)) /\
  (p <> token handler ->
   ServeHTTP handler req =
   Unauthorized ["Unauthorised:"; "Invalid credentials"]
     (Fprintln "Invalid credentials") 401).
Proof.
  intros Hh Hd Hu Hp.
  assert (NewBasic b64 = (Some (mkBasic u p), None)) as Hb.
  { apply NewBasic_succeeds. exists (u ++ ":" ++ p). split; [exact Hd|].
    apply Split_two. auto. }
  rewrite (ServeHTTP_Basic handler req b64 u p more Hh Hb).
  split; intros HC.
  - subst p. now rewrite String.eqb_refl.
  - apply String.eqb_neq in HC. now rewrite HC.
Qed.

Lemma Basic_password_witness :
  (Header (basicRequest "YWxpY2U6czNjcjN0") !! "Authorization"
   = Some ["Basic YWxpY2U6czNjcjN0"] /\
   Base64.DecodeString "YWxpY2U6czNjcjN0" = Some ("alice" ++ ":" ++ "s3cr3t") /\
   Strings.Count "alice" ":"%char = O /\
   Strings.Count "s3cr3t" ":"%char = O /\
   "s3cr3t" = token echo) /\
  ServeHTTP echo (basicRequest "YWxpY2U6czNjcjN0")
  = Forwarded (basicRequest "YWxpY2U6czNjcjN0").
Proof.
  split.
  - repeat split; vm_compute; reflexivity.
  - apply (Basic_password echo (basicRequest "YWxpY2U6czNjcjN0")
             "YWxpY2U6czNjcjN0" "alice" "s3cr3t" []);
      vm_compute; reflexivity.
Defined.

(** C4, as the spec states it, fails on the body: for "alice:wrong" it
    is "Invalid credentials" and a line feed. *)
Lemma Basic_body_is_not_the_bare_reason :
  Base64.DecodeString "YWxpY2U6d3Jvbmc=" = Some ("alice" ++ ":" ++ "wrong") /\
  "wrong" <> token echo /\
  ServeHTTP echo (basicRequest "YWxpY2U6d3Jvbmc=")
  = Unauthorized ["Unauthorised:"; "Invalid credentials"]
      ("Invalid credentials" ++ String "010"%char EmptyString) 401 /\
  ~ (exists logged code,
        ServeHTTP echo (basicRequest "YWxpY2U6d3Jvbmc=")
        = Unauthorized logged "Invalid credentials" code).
Proof.
  split; [vm_compute; reflexivity|].
  split; [discriminate|].
  assert (ServeHTTP echo (basicRequest "YWxpY2U6d3Jvbmc=")
          = Unauthorized ["Unauthorised:"; "Invalid credentials"]
              ("Invalid credentials" ++ String "010"%char EmptyString) 401)
    as H by (vm_compute; reflexivity).
  split; [exact H|].
  intros (logged & code & H'). rewrite H in H'.
  injection H' as _ Hbody _. vm_compute in Hbody. discriminate Hbody.
Qed.

(** C5, as amended.  With no usable Authorization header (none, an empty
    list of values, or a scheme that is neither "Bearer" nor "Basic") the
    merged parameters decide: the request is forwarded exactly when
    "access_token" is there with a first value equal to the token, and
    otherwise the answer is 401 with the body "Mising or invalid
    access_token" followed by a line feed. *)
Theorem access_token_rule {Response : Type}
  (handler : AuthHandler Response) (req : Request) :
  no_usable_header req ->
  ((exists resp, ServeHTTP handler req = Forwarded resp)
   <-> has_access_token req (token handler)) /\
  (has_access_token req (token handler) ->
   ServeHTTP handler req = Forwarded (app handler (ParseForm req))) /\
  (~ has_access_token req (token handler) ->
   ServeHTTP handler req =
   Unauthorized ["Unauthorised:"; "Mising or invalid access_token"]
     (Fprintln "Mising or invalid access_token") 401).
Proof.
  unfold no_usable_header.
  destruct (ParseRequest req) as [[scheme credentials] err] eqn:Hp.
  intros [Hbearer Hbasic].
  destruct (ServeHTTP_default handler req _ _ _ Hp Hbearer Hbasic) as [Hyes Hno].
  split; [|split; assumption].
  split; [|eauto].
  intros [resp Hf].
  destruct (classic_access_token req (token handler)) as [Ht|Hn]; [exact Ht|].
  rewrite (Hno Hn) in Hf. discriminate.
Qed.

Lemma access_token_rule_witness :
  (no_usable_header (queryRequest ∅ "s3cr3t") /\
   has_access_token (queryRequest ∅ "s3cr3t") (token echo)) /\
  ServeHTTP echo (queryRequest ∅ "s3cr3t")
  = Forwarded (ParseForm (queryRequest ∅ "s3cr3t")).
Proof.
  assert (no_usable_header (queryRequest ∅ "s3cr3t")) as Hn
    by (vm_compute; split; discriminate).
  assert (has_access_token (queryRequest ∅ "s3cr3t") (token echo)) as Ht
    by (exists {[ "access_token" := ["s3cr3t"] ]}, []; split;
        vm_compute; reflexivity).
  split; [split; assumption|].
  apply (access_token_rule echo (queryRequest ∅ "s3cr3t") Hn). exact Ht.
Defined.

(** C5, as the spec states it, fails on the body: for a request without
    any credentials it is "Mising or invalid access_token" and a line
    feed. *)
Lemma access_token_body_is_not_the_bare_reason :
  no_usable_header (get ∅ ∅) /\
  ~ has_access_token (get ∅ ∅) (token echo) /\
  ServeHTTP echo (get ∅ ∅)
  = Unauthorized ["Unauthorised:"; "Mising or invalid access_token"]
      ("Mising or invalid access_token" ++ String "010"%char EmptyString) 401 /\
  ~ (exists logged code,
        ServeHTTP echo (get ∅ ∅)
        = Unauthorized logged "Mising or invalid access_token" code).
Proof.
  split; [vm_compute; split; discriminate|].
  split.
  { intros (f & vs & Hf & Hl). vm_compute in Hf. injection Hf as <-.
    vm_compute in Hl. discriminate Hl. }
  assert (ServeHTTP echo (get ∅ ∅)
          = Unauthorized ["Unauthorised:"; "Mising or invalid access_token"]
              ("Mising or invalid access_token" ++ String "010"%char EmptyString)
              401)
    as H by (vm_compute; reflexivity).
  split; [exact H|].
  intros (logged & code & H'). rewrite H in H'.
  injection H' as _ Hbody _. vm_compute in Hbody. discriminate Hbody.
Qed.

(** C6.  A first Authorization value with a scheme other than "Bearer" and
    "Basic" is not a reason to reject: the access_token rule decides, so a
    matching access_token gets the request forwarded. *)
Theorem other_scheme_falls_through {Response : Type}
  (handler : AuthHandler Response) (req : Request)
  (value scheme credentials : string) (more : list string) :
  Header req !! "Authorization" = Some (value :: more) ->
  Parse value = (scheme, credentials, None) ->
  scheme <> "Bearer" -> scheme <> "Basic" ->
  (has_access_token req (token handler) ->
   ServeHTTP handler req = Forwarded (app handler (ParseForm req))) /\
  (~ has_access_token req (token handler) ->
   ServeHTTP handler req =
   Unauthorized ["Unauthorised:"; "Mising or invalid access_token"]
     (Fprintln "Mising or invalid access_token") 401).
Proof.
  intros Hh Hv Hbearer Hbasic.
  apply (ServeHTTP_default handler req scheme credentials None);
    [|assumption|assumption].
  now rewrite (ParseRequest_first _ _ _ Hh).
Qed.

Lemma other_scheme_falls_through_witness :
  (Header (queryRequest {[ "Authorization" := ["Weirdscheme abc"] ]} "s3cr3t")
     !! "Authorization" = Some ["Weirdscheme abc"] /\
   Parse "Weirdscheme abc" = ("Weirdscheme", "abc", None) /\
   "Weirdscheme" <> "Bearer" /\ "Weirdscheme" <> "Basic" /\
   has_access_token
     (queryRequest {[ "Authorization" := ["Weirdscheme abc"] ]} "s3cr3t")
     (token echo)) /\
  ServeHTTP echo (queryRequest {[ "Authorization" := ["Weirdscheme abc"] ]} "s3cr3t")
  = Forwarded
      (ParseForm (queryRequest {[ "Authorization" := ["Weirdscheme abc"] ]} "s3cr3t")).
Proof.
  assert (has_access_token
            (queryRequest {[ "Authorization" := ["Weirdscheme abc"] ]} "s3cr3t")
            (token echo)) as Ht
    by (exists {[ "access_token" := ["s3cr3t"] ]}, []; split;
        vm_compute; reflexivity).
  split.
  - split; [vm_compute; reflexivity|]. split; [vm_compute; reflexivity|].
    split; [discriminate|]. split; [discriminate | exact Ht].
  - apply (other_scheme_falls_through echo _ "Weirdscheme abc"
             "Weirdscheme" "abc" []);
      [vm_compute; reflexivity | vm_compute; reflexivity
      | discriminate | discriminate | exact Ht].
Defined.

(** C7.  [NewBasic] decodes and splits on ':': it returns a user and a
    password exactly when the decoding succeeds and there are exactly two
    fields, and its error in every other case; the number of fields is the
    number of colons plus one, so a decoded text with no colon or with more
    than one makes it fail. *)
Theorem NewBasic_decodes_and_splits (credentials : string) :
  (forall user pass,
      NewBasic credentials = (Some (mkBasic user pass), None)
      <-> exists txt, Base64.DecodeString credentials = Some txt /\
                      Strings.Split txt ":"%char = [user; pass]) /\
  (NewBasic credentials
   = (None, Some "The basic authentication header is malformed.")
   <-> (Base64.DecodeString credentials = None \/
        exists txt, Base64.DecodeString credentials = Some txt /\
                    List.length (Strings.Split txt ":"%char) <> 2%nat)) /\
  ((exists user pass, NewBasic credentials = (Some (mkBasic user pass), None)) \/
   NewBasic credentials
   = (None, Some "The basic authentication header is malformed.")) /\
  (forall txt,
      List.length (Strings.Split txt ":"%char) = S (Strings.Count txt ":"%char)) /\
  (forall txt,
      Base64.DecodeString credentials = Some txt ->
      Strings.Count txt ":"%char <> 1%nat ->
      NewBasic credentials
      = (None, Some "The basic authentication header is malformed.")).
Proof.
  split; [intros; apply NewBasic_succeeds|].
  split; [apply NewBasic_fails|].
  split.
  { unfold NewBasic.
    destruct (Base64.DecodeString credentials) as [txt|]; [|now right].
    destruct (Strings.Split txt ":"%char) as [|a [|b [|c l]]]; eauto. }
  split; [intros; apply Split_length|].
  intros txt Hd Hc. apply NewBasic_fails. right. exists txt.
  split; [exact Hd|]. rewrite Split_length. lia.
Qed.

(** C8.  The decision is a function of the token, the headers and the
    merged parameters: two gates with the same token give two requests
    with the same headers and the same parameters the same decision and
    reason, and so does the first gate on the request as any number of
    earlier calls have left it. *)
Theorem decision_deterministic {R1 R2 : Type}
  (h1 : AuthHandler R1) (h2 : AuthHandler R2) (r1 r2 : Request) :
  token h1 = token h2 ->
  Header r1 = Header r2 ->
  Form (ParseForm r1) = Form (ParseForm r2) ->
  decision h1 r1 = decision h2 r2 /\
  forall n : nat, decision h1 (Nat.iter n (requestAfter h1) r1) = decision h2 r2.
Proof.
  intros Ht Hh Hf.
  assert (forall r, Header r = Header r2 ->
                    Form (ParseForm r) = Form (ParseForm r2) ->
                    decision h1 r = decision h2 r2) as Hsame.
  { intros r Hh' Hf'. apply decision_reads; [exact Ht| |].
    - unfold ParseRequest. now rewrite Hh'.
    - unfold FormValue. now rewrite Hf'. }
  split; [now apply Hsame|].
  intros n. destruct (requestAfter_iter h1 r1 n) as [Hh' Hf'].
  apply Hsame; congruence.
Qed.

Lemma decision_deterministic_witness :
  (token echo = token echo /\
   Header (queryRequest ∅ "s3cr3t")
   = Header (ParseForm (queryRequest ∅ "s3cr3t")) /\
   Form (ParseForm (queryRequest ∅ "s3cr3t"))
   = Form (ParseForm (ParseForm (queryRequest ∅ "s3cr3t")))) /\
  decision echo (queryRequest ∅ "s3cr3t")
  = decision echo (ParseForm (queryRequest ∅ "s3cr3t")) /\
  decision echo (Nat.iter 3 (requestAfter echo) (queryRequest ∅ "s3cr3t"))
  = decision echo (ParseForm (queryRequest ∅ "s3cr3t")).
Proof.
  split.
  - repeat split; reflexivity.
  - destruct (decision_deterministic echo echo (queryRequest ∅ "s3cr3t")
                (ParseForm (queryRequest ∅ "s3cr3t"))
                eq_refl eq_refl eq_refl) as [H1 H2].
    split; [exact H1 | exact (H2 3%nat)].
Defined.

(** C9.  Only the first Authorization value counts: the decision for a
    request is the decision for the same request with the later values
    dropped. *)
Theorem first_Authorization_only {Response : Type}
  (handler : AuthHandler Response) (req : Request)
  (value : string) (more : list string) :
  Header req !! "Authorization" = Some (value :: more) ->
  Header (firstAuthorization req) !! "Authorization" = Some [value] /\
  decision handler req = decision handler (firstAuthorization req).
Proof.
  intros Hh.
  assert (Header (firstAuthorization req) !! "Authorization" = Some [value])
    as Hh' by (simpl; now rewrite lookup_alter_eq, Hh).
  split; [exact Hh'|].
  apply decision_reads; [reflexivity| |reflexivity].
  now rewrite (ParseRequest_first _ _ _ Hh), (ParseRequest_first _ _ _ Hh').
Qed.

Lemma first_Authorization_only_witness :
  Header (get {[ "Authorization" := ["Bearer s3cr3t"; "Bearer wrong"] ]} ∅)
    !! "Authorization" = Some ["Bearer s3cr3t"; "Bearer wrong"] /\
  Header (firstAuthorization
            (get {[ "Authorization" := ["Bearer s3cr3t"; "Bearer wrong"] ]} ∅))
    !! "Authorization" = Some ["Bearer s3cr3t"] /\
  decision echo (get {[ "Authorization" := ["Bearer s3cr3t"; "Bearer wrong"] ]} ∅)
  = decision echo
      (firstAuthorization
         (get {[ "Authorization" := ["Bearer s3cr3t"; "Bearer wrong"] ]} ∅)).
Proof.
  split; [vm_compute; reflexivity|].
  apply (first_Authorization_only echo _ "Bearer s3cr3t" ["Bearer wrong"]).
  vm_compute; reflexivity.
Defined.

(** C10.  [NewAuthHandler] keeps whatever token it is given.  With the
    empty token, a request without an Authorization header whose
    "access_token" has an empty first value is forwarded. *)
Theorem empty_token_gate {Response : Type}
  (downstream : Request -> Response) (req : Request) :
  Header req !! "Authorization" = None ->
  has_access_token req "" ->
  (forall tok, token (NewAuthHandler downstream tok) = tok) /\
  ServeHTTP (NewAuthHandler downstream "") req
  = Forwarded (downstream (ParseForm req)).
Proof.
  intros Hh Ht. split; [reflexivity|].
  assert (ParseRequest req = ("", "", Some "The authorization header is not set."))
    as Hp by (apply ParseRequest_unset; now left).
  apply (ServeHTTP_default (NewAuthHandler downstream "") req _ _ _ Hp);
    [discriminate | discriminate | exact Ht].
Qed.

Lemma empty_token_gate_witness :
  (Header (queryRequest ∅ "") !! "Authorization" = None /\
   has_access_token (queryRequest ∅ "") "") /\
  ServeHTTP (NewAuthHandler (fun r : Request => r) "") (queryRequest ∅ "")
  = Forwarded (ParseForm (queryRequest ∅ "")).
Proof.
  assert (has_access_token (queryRequest ∅ "") "") as Ht
    by (exists {[ "access_token" := [""] ]}, []; split; vm_compute; reflexivity).
  split.
  - split; [vm_compute; reflexivity | exact Ht].
  - apply (empty_token_gate (fun r : Request => r) (queryRequest ∅ ""));
      [vm_compute; reflexivity | exact Ht].
Defined.

(** * Further properties of the code *)

(** ** Parse and ParseRequest *)

Lemma Parse_error_shape value scheme credentials msg :
  Parse value = (scheme, credentials, Some msg) ->
  scheme = "" /\ credentials = "" /\
  msg = "The authorization header is malformed." /\
  Strings.Count value " "%char = O.
Proof.
  rewrite Parse_Cut.
  destruct (Strings.Cut value " "%char) as [[s c]|] eqn:E; [discriminate|].
  intros [= <- <- <-]. apply Cut_None in E. auto.
Qed.

Lemma Parse_no_space value :
  Strings.Count value " "%char = O ->
  Parse value = ("", "", Some "The authorization header is malformed.").
Proof. intros H. apply Cut_None in H. now rewrite Parse_Cut, H. Qed.

(** X1.  [Parse] succeeds exactly on the values that are a scheme without
    a space, one space, and the credentials: the cut is at the first
    space, and the credentials keep every later space. *)
Theorem Parse_splits_at_first_space (value scheme credentials : string) :
  Parse value = (scheme, credentials, None)
  <-> value = (scheme ++ String " "%char credentials)%string /\
      Strings.Count scheme " "%char = O.
Proof.
  rewrite Parse_Cut. split.
  - destruct (Strings.Cut value " "%char) as [[s c]|] eqn:E; [|discriminate].
    intros [= <- <-]. now apply Cut_Some in E.
  - intros [-> H]. now rewrite Cut_append.
Qed.

(** X2.  [Parse] fails exactly on the values without a space (the empty
    value among them), and then hands back an empty scheme and empty
    credentials, never a part of the value. *)
Theorem Parse_fails_without_space (value : string) :
  (Strings.Count value " "%char = O
   <-> Parse value = ("", "", Some "The authorization header is malformed.")) /\
  (Strings.Count value " "%char <> O
   <-> exists scheme credentials, Parse value = (scheme, credentials, None)).
Proof.
  rewrite Parse_Cut.
  destruct (Strings.Cut value " "%char) as [[s c]|] eqn:E.
  - assert (Strings.Count value " "%char <> O) as Hc.
    { intros Hc. apply Cut_None in Hc. congruence. }
    split; split; try discriminate; try contradiction; eauto.
  - pose proof (proj1 (Cut_None _ _) E) as Hc.
    split; split; try tauto.
    intros (scheme & credentials & [=]).
Qed.

(** X3.  [ParseRequest] reports "not set" exactly when the header is
    absent or has no values, and "malformed" exactly when the first value
    has no space; whenever it reports an error the scheme and the
    credentials it returns are empty. *)
Theorem ParseRequest_errors (r : Request) :
  (ParseRequest r = ("", "", Some "The authorization header is not set.")
   <-> firstValue r = None) /\
  (ParseRequest r = ("", "", Some "The authorization header is malformed.")
   <-> exists value, firstValue r = Some value /\
                     Strings.Count value " "%char = O) /\
  (forall scheme credentials msg,
      ParseRequest r = (scheme, credentials, Some msg) ->
      scheme = "" /\ credentials = "").
Proof.
  unfold ParseRequest, firstValue.
  destruct (Header r !! "Authorization") as [[|value more]|]; simpl.
  - split; [tauto|]. split; [|now intros s c m [= <- <- _]].
    split; [discriminate | intros (v & [=] & _)].
  - split; [|split].
    + split; [|discriminate]. intros H.
      apply Parse_error_shape in H as (_ & _ & [=] & _).
    + split.
      * intros H. apply Parse_error_shape in H as (_ & _ & _ & H). eauto.
      * intros (v & [= <-] & H). now apply Parse_no_space.
    + intros s c m H. apply Parse_error_shape in H. tauto.
  - split; [tauto|]. split; [|now intros s c m [= <- <- _]].
    split; [discriminate | intros (v & [=] & _)].
Qed.

(** ** NewBasic and the client's encoding *)

Lemma NewBasic_shape credentials :
  (exists user pass, NewBasic credentials = (Some (mkBasic user pass), None)) \/
  NewBasic credentials
  = (None, Some "The basic authentication header is malformed.").
Proof.
  unfold NewBasic.
  destruct (Base64.DecodeString credentials) as [txt|]; [|now right].
  destruct (Strings.Split txt ":"%char) as [|a [|b [|c l]]]; eauto.
Qed.

(** X4.  [NewBasic] undoes what a client does: on the standard encoding of
    a text it returns a user and a password exactly when the text is the
    user, one colon and the password, neither with a colon in it. *)
Theorem NewBasic_EncodeToString (txt user pass : string) :
  NewBasic (Base64.EncodeToString txt) = (Some (mkBasic user pass), None)
  <-> txt = (user ++ String ":"%char pass)%string /\
      Strings.Count user ":"%char = O /\ Strings.Count pass ":"%char = O.
Proof.
  rewrite NewBasic_succeeds. split.
  - intros (t & Hd & Hs). rewrite DecodeString_EncodeToString in Hd.
    injection Hd as <-. now apply Split_two.
  - intros H. exists txt. split; [apply DecodeString_EncodeToString|].
    now apply Split_two.
Qed.

(** ** The gate as a whole *)

Section GateWhole.

Context {Response : Type}.
Implicit Types (handler : AuthHandler Response) (req : Request).

(** [ServeHTTP] by the branch of the switch. *)
Lemma ServeHTTP_branches handler req :
  let '(scheme, credentials, _) := ParseRequest req in
  (scheme = "Bearer" /\
   ServeHTTP handler req =
   if String.eqb credentials (token handler)
   then Forwarded (app handler req)
   else Unauthorized ["Unauthorised:"; "Invalid Access Token"]
          (Fprintln "Invalid Access Token") 401) \/
  (scheme = "Basic" /\
   ((exists user pass,
        NewBasic credentials = (Some (mkBasic user pass), None) /\
        ServeHTTP handler req =
        if String.eqb pass (token handler)
        then Forwarded (app handler req)
        else Unauthorized ["Unauthorised:"; "Invalid credentials"]
               (Fprintln "Invalid credentials") 401) \/
    (NewBasic credentials
     = (None, Some "The basic authentication header is malformed.") /\
     ServeHTTP handler req = Panicked))) \/
  (scheme <> "Bearer" /\ scheme <> "Basic" /\
   ((has_access_token req (token handler) /\
     ServeHTTP handler req = Forwarded (app handler (ParseForm req))) \/
    (~ has_access_token req (token handler) /\
     ServeHTTP handler req =
     Unauthorized ["Unauthorised:"; "Mising or invalid access_token"]
       (Fprintln "Mising or invalid access_token") 401))).
Proof.
  destruct (ParseRequest req) as [[scheme credentials] err] eqn:Hp.
  destruct (String.eqb_spec scheme "Bearer") as [->|Hbearer].
  - left. split; [reflexivity|]. unfold ServeHTTP.
    rewrite (authorize_Bearer _ _ _ _ Hp).
    destruct (String.eqb credentials (token handler)); reflexivity.
  - destruct (String.eqb_spec scheme "Basic") as [->|Hbasic].
    + right; left. split; [reflexivity|]. unfold ServeHTTP.
      rewrite (authorize_Basic _ _ _ _ Hp).
      destruct (NewBasic_shape credentials) as [(user & pass & Hb)|Hb];
        rewrite Hb; [left | right; auto].
      exists user, pass. split; [reflexivity|]. simpl.
      destruct (String.eqb pass (token handler)); reflexivity.
    + right; right. split; [exact Hbearer|]. split; [exact Hbasic|].
      destruct (ServeHTTP_default handler req _ _ _ Hp Hbearer Hbasic)
        as [Hyes Hno].
      destruct (classic_access_token req (token handler)); auto.
Qed.

End GateWhole.

Ltac by_branch handler req :=
  let H := fresh "Hbranch" in
  pose proof (ServeHTTP_branches handler req) as H;
  unfold presents_token;
  destruct (ParseRequest req) as [[?scheme ?credentials] ?err] eqn:?Hparse;
  destruct H as
    [[-> Hserve]
    |[[-> [(?user & ?pass & Hbasic & Hserve)|[Hbasic Hserve]]]
     |(?Hbearer & ?Hbasic' & [[?Htok Hserve]|[?Htok Hserve]])]].

(** X5.  The gate lets a request through exactly when the request
    presents the token on the channel its Authorization scheme selects:
    nothing is forwarded without the token, and nothing that presents it
    is turned away. *)
Theorem forwarded_iff_token_presented {Response : Type}
  (handler : AuthHandler Response) (req : Request) :
  (exists resp, ServeHTTP handler req = Forwarded resp)
  <-> presents_token req (token handler).
Proof.
  by_branch handler req; rewrite Hserve.
  - destruct (String.eqb_spec credentials (token handler)) as [E|E].
    + split; eauto.
    + split; [intros [resp [=]]|].
      intros [[_ H]|[[[=] _]|(H & _)]]; contradiction.
  - destruct (String.eqb_spec pass (token handler)) as [E|E].
    + split; [|eauto]. intros _. right; left. subst pass. eauto.
    + split; [intros [resp [=]]|].
      intros [[[=] _]|[(_ & u & H)|(_ & H & _)]]; [|contradiction].
      rewrite Hbasic in H. injection H as _ H. contradiction.
  - split; [intros [resp [=]]|].
    intros [[[=] _]|[(_ & u & H)|(_ & H & _)]]; [|contradiction].
    rewrite Hbasic in H. discriminate.
  - split; eauto.
  - split; [intros [resp [=]]|].
    intros [[H _]|[[H _]|(_ & _ & H)]]; contradiction.
Qed.

(** X6.  Every answer of the gate itself has status 401; it is logged as
    "Unauthorised:" followed by the reason, its body is the reason
    followed by a line feed, and the reason is one of three strings.
    "Malformed Basic Authorization crdentials" is never among them,
    although [authorize] assigns it. *)
Theorem rejection_shape {Response : Type}
  (handler : AuthHandler Response) (req : Request)
  (logged : list string) (body : string) (code : Z) :
  ServeHTTP handler req = Unauthorized logged body code ->
  exists reason,
    code = 401 /\ logged = ["Unauthorised:"; reason] /\
    body = (reason ++ String "010"%char EmptyString)%string /\
    (reason = "Invalid Access Token" \/ reason = "Invalid credentials" \/
     reason = "Mising or invalid access_token") /\
    reason <> "Malformed Basic Authorization crdentials".
Proof.
  intros H. by_branch handler req; rewrite Hserve in H.
  - destruct (String.eqb credentials (token handler)); [discriminate|].
    injection H as <- <- <-. exists "Invalid Access Token".
    repeat split; auto; discriminate.
  - destruct (String.eqb pass (token handler)); [discriminate|].
    injection H as <- <- <-. exists "Invalid credentials".
    repeat split; auto; discriminate.
  - discriminate.
  - discriminate.
  - injection H as <- <- <-. exists "Mising or invalid access_token".
    repeat split; auto; discriminate.
Qed.

(** X7.  The gate panics on the requests whose scheme is "Basic" and whose
    credentials [NewBasic] refuses, and on no other request. *)
Theorem panics_iff_Basic_refused {Response : Type}
  (handler : AuthHandler Response) (req : Request) :
  ServeHTTP handler req = Panicked
  <-> exists credentials err,
        ParseRequest req = ("Basic", credentials, err) /\
        NewBasic credentials
        = (None, Some "The basic authentication header is malformed.").
Proof.
  by_branch handler req; rewrite Hserve.
  - split; [|intros (c & e & [=] & _)].
    destruct (String.eqb credentials (token handler)); discriminate.
  - split.
    + destruct (String.eqb pass (token handler)); discriminate.
    + intros (c & e & [= <- _] & H). rewrite Hbasic in H. discriminate.
  - split; eauto.
  - split; [discriminate|]. intros (c & e & [= -> _ _] & _). contradiction.
  - split; [discriminate|]. intros (c & e & [= -> _ _] & _). contradiction.
Qed.

(** X8.  A token with a colon in it cannot be presented through the Basic
    scheme: whatever the credentials, a request with that scheme is never
    forwarded. *)
Theorem colon_token_closes_Basic {Response : Type}
  (handler : AuthHandler Response) (req : Request)
  (credentials : string) (err : error) :
  Strings.Count (token handler) ":"%char <> O ->
  ParseRequest req = ("Basic", credentials, err) ->
  forall resp, ServeHTTP handler req <> Forwarded resp.
Proof.
  intros Hcolon Hp resp H.
  pose proof (ServeHTTP_branches handler req) as B. rewrite Hp in B.
  destruct B as [[[=] _]|[(_ & [(user & pass & Hb & Hs)|[Hb Hs]])|(_ & Hn & _)]];
    [| |now apply Hn]; rewrite Hs in H; [|discriminate].
  destruct (String.eqb_spec pass (token handler)) as [E|Hne]; [|discriminate].
  apply NewBasic_succeeds in Hb as (txt & _ & Hsplit).
  apply Split_two in Hsplit as (_ & _ & Hsplit). congruence.
Qed.

(** ** Gates in front of gates *)

(** Parsing the form first changes nothing for the access_token rule. *)
Lemma ServeHTTP_after_ParseForm {Response : Type}
  (handler : AuthHandler Response) (req : Request)
  (scheme credentials : string) (err : error) :
  ParseRequest req = (scheme, credentials, err) ->
  scheme <> "Bearer" -> scheme <> "Basic" ->
  ServeHTTP handler (ParseForm req) = ServeHTTP handler req.
Proof.
  intros Hp Hbearer Hbasic. unfold ServeHTTP.
  rewrite (authorize_default handler req _ _ _ Hp Hbearer Hbasic).
  rewrite (authorize_default handler (ParseForm req) scheme credentials err);
    [reflexivity | exact Hp | exact Hbearer | exact Hbasic].
Qed.

(** X9.  An [AuthHandler] is itself a handler and can be decorated again.
    With the same token twice the outer gate decides as the inner one
    alone: it rejects and panics on the same requests with the same
    answer, and what it forwards the inner gate forwards in turn. *)
Theorem stacked_gates_same_token {Response : Type}
  (downstream : Request -> Response) (tok : string) (req : Request) :
  ServeHTTP (NewAuthHandler (ServeHTTP (NewAuthHandler downstream tok)) tok) req
  = match ServeHTTP (NewAuthHandler downstream tok) req with
    | Forwarded resp => Forwarded (Forwarded resp)
    | Unauthorized logged body code => Unauthorized logged body code
    | Panicked => Panicked
    end.
Proof.
  pose proof (ServeHTTP_branches
                (NewAuthHandler (ServeHTTP (NewAuthHandler downstream tok)) tok)
                req) as Houter.
  pose proof (ServeHTTP_branches (NewAuthHandler downstream tok) req) as Hinner.
  destruct (ParseRequest req) as [[scheme credentials] err] eqn:Hp.
  simpl token in *. simpl app in *.
  destruct Houter as
    [[-> Ho]|[[-> [(u & p & Hb & Ho)|[Hb Ho]]]|(Hn1 & Hn2 & [[Ht Ho]|[Ht Ho]])]];
  destruct Hinner as
    [[E Hi]|[[E [(u' & p' & Hb' & Hi)|[Hb' Hi]]]|(Hn1' & Hn2' & [[Ht' Hi]|[Ht' Hi]])]];
    try discriminate E; try contradiction; try congruence.
  - rewrite Ho, Hi.
    destruct (String.eqb credentials tok); reflexivity.
  - rewrite Ho, Hi. assert (p' = p) as -> by congruence.
    destruct (String.eqb p tok); reflexivity.
  - now rewrite Ho, Hi.
  - rewrite Ho, Hi.
    now rewrite (ServeHTTP_after_ParseForm _ _ _ _ _ Hp Hn1 Hn2), Hi.
  - now rewrite Ho, Hi.
Qed.

(** X10.  With two different tokens nothing reaches the innermost
    handler: no request satisfies both gates. *)
Theorem stacked_gates_distinct_tokens {Response : Type}
  (downstream : Request -> Response) (outer inner : string) (req : Request) :
  outer <> inner ->
  forall resp,
    ServeHTTP (NewAuthHandler (ServeHTTP (NewAuthHandler downstream inner)) outer)
      req
    <> Forwarded (Forwarded resp).
Proof.
  intros Hne resp H.
  pose proof (ServeHTTP_branches
                (NewAuthHandler (ServeHTTP (NewAuthHandler downstream inner)) outer)
                req) as Houter.
  pose proof (ServeHTTP_branches (NewAuthHandler downstream inner) req) as Hinner.
  destruct (ParseRequest req) as [[scheme credentials] err] eqn:Hp.
  simpl token in *. simpl app in *.
  destruct Houter as
    [[-> Ho]|[[-> [(u & p & Hb & Ho)|[Hb Ho]]]|(Hn1 & Hn2 & [[Ht Ho]|[Ht Ho]])]];
    rewrite Ho in H; try discriminate H.
  - destruct (String.eqb_spec credentials outer) as [E|]; [|discriminate H].
    subst credentials. destruct Hinner as [[_ Hi]|[[[=] _]|(Hn & _)]]; [|contradiction].
    apply String.eqb_neq in Hne. rewrite Hne in Hi.
    injection H as H. rewrite Hi in H. discriminate H.
  - destruct (String.eqb_spec p outer) as [E|]; [|discriminate H].
    subst p. destruct Hinner as
      [[[=] _]|[[_ [(u' & p' & Hb' & Hi)|[Hb' Hi]]]|(_ & Hn & _)]];
      [| |contradiction]; injection H as H; rewrite Hi in H;
      [|discriminate H].
    assert (p' = outer) as -> by congruence.
    apply String.eqb_neq in Hne. rewrite Hne in H. discriminate H.
  - injection H as H.
    rewrite (ServeHTTP_after_ParseForm _ _ _ _ _ Hp Hn1 Hn2) in H.
    destruct Hinner as [[E _]|[[E _]|(_ & _ & [[Ht' Hi]|[Ht' Hi]])]];
      try contradiction; rewrite Hi in H; [|discriminate H].
    destruct Ht as (f & vs & Hf & Hl). destruct Ht' as (f' & vs' & Hf' & Hl').
    congruence.
Qed.

(** ** What authorize reads and what it leaves *)

Lemma ParseRequest_firstValue r :
  ParseRequest r =
  match firstValue r with
  | Some value => Parse value
  | None => ("", "", Some "The authorization header is not set.")
  end.
Proof.
  unfold ParseRequest, firstValue.
  destruct (Header r !! "Authorization") as [[|value more]|]; reflexivity.
Qed.

(** X11.  The decision reads the token, the first Authorization value and
    the first "access_token" value, and nothing else of the request: other
    headers, later values, the method, the path and the other parameters
    have no influence. *)
Theorem decision_reads_first_values {R1 R2 : Type}
  (h1 : AuthHandler R1) (h2 : AuthHandler R2) (r1 r2 : Request) :
  token h1 = token h2 ->
  firstValue r1 = firstValue r2 ->
  head (FormValue (ParseForm r1) "access_token")
  = head (FormValue (ParseForm r2) "access_token") ->
  decision h1 r1 = decision h2 r2.
Proof.
  intros Ht Hv Hf. unfold decision, authorize.
  rewrite !ParseRequest_firstValue, Hv, Ht.
  destruct (match firstValue r2 with
            | Some value => Parse value
            | None => ("", "", Some "The authorization header is not set.")
            end) as [[scheme credentials] err].
  destruct (String.eqb scheme "Bearer").
  - destruct (negb (String.eqb credentials (token h2))); reflexivity.
  - destruct (String.eqb scheme "Basic").
    + destruct (NewBasic credentials) as [[b|] [e|]]; try reflexivity;
        destruct (negb (String.eqb (Password b) (token h2))); reflexivity.
    + destruct (FormValue (ParseForm r1) "access_token") as [|v1 l1];
        destruct (FormValue (ParseForm r2) "access_token") as [|v2 l2];
        simpl in Hf; try discriminate Hf; [reflexivity|].
      injection Hf as ->.
      destruct (negb (String.eqb v2 (token h2))); reflexivity.
Qed.

Lemma decision_reads_first_values_witness :
  (token echo = token echo /\
   firstValue (get {[ "Authorization" := ["Bearer s3cr3t"; "Basic !!!"] ]}
                 {[ "page" := ["2"] ]})
   = firstValue (bearerRequest "s3cr3t") /\
   head (FormValue (ParseForm (get {[ "Authorization" :=
                                        ["Bearer s3cr3t"; "Basic !!!"] ]}
                                 {[ "page" := ["2"] ]})) "access_token")
   = head (FormValue (ParseForm (bearerRequest "s3cr3t")) "access_token")) /\
  decision echo (get {[ "Authorization" := ["Bearer s3cr3t"; "Basic !!!"] ]}
                   {[ "page" := ["2"] ]})
  = decision echo (bearerRequest "s3cr3t").
Proof.
  split.
  - repeat split; vm_compute; reflexivity.
  - apply decision_reads_first_values; vm_compute; reflexivity.
Defined.

Ltac settle_reason :=
  repeat split; intros; try discriminate; try reflexivity; try congruence.

(** X12.  When [authorize] returns, its reason is empty exactly when the
    request is authorized: every rejection carries a reason, and no
    accepted request carries one. *)
Theorem reason_iff_unauthorized {Response : Type}
  (handler : AuthHandler Response) (req req' : Request)
  (unauthorized : bool) (reason : string) :
  authorize handler req = Returns (unauthorized, reason, req') ->
  (unauthorized = true <-> reason <> "") /\
  (unauthorized = false <-> reason = "").
Proof.
  unfold authorize.
  destruct (ParseRequest req) as [[scheme credentials] err].
  destruct (String.eqb scheme "Bearer").
  - destruct (negb (String.eqb credentials (token handler)));
      intros [= <- <- <-]; settle_reason.
  - destruct (String.eqb scheme "Basic").
    + destruct (NewBasic credentials) as [[b|] [e|]]; try discriminate;
        destruct (negb (String.eqb (Password b) (token handler)));
        intros [= <- <- <-]; settle_reason.
    + destruct (FormValue (ParseForm req) "access_token") as [|first more];
        [intros [= <- <- <-]; settle_reason|].
      destruct (negb (String.eqb first (token handler)));
        intros [= <- <- <-]; settle_reason.
Qed.

Lemma reason_iff_unauthorized_witness :
  authorize echo (bearerRequest "wrong")
  = Returns (true, "Invalid Access Token", bearerRequest "wrong") /\
  (true = true <-> "Invalid Access Token" <> "") /\
  (true = false <-> "Invalid Access Token" = "").
Proof.
  split; [vm_compute; reflexivity|].
  apply (reason_iff_unauthorized echo (bearerRequest "wrong")
           (bearerRequest "wrong")).
  vm_compute; reflexivity.
Defined.




(** The POST above reaches the handler with its form parsed and its body
    read: nothing is left to parse again. *)
Example forwarded_post_is_drained :
  BodyValues (ParseForm (formPost "s3cr3t")) = ∅ /\
  FormValue (ParseForm (formPost "s3cr3t")) "access_token" = ["s3cr3t"].
Proof. split; vm_compute; reflexivity. Qed.

(** ** Witnesses of the gate's properties *)

Lemma rejection_shape_witness :
  ServeHTTP echo (bearerRequest "wrong")
  = Unauthorized ["Unauthorised:"; "Invalid Access Token"]
      ("Invalid Access Token" ++ String "010"%char EmptyString) 401 /\
  exists reason,
    401 = 401 /\
    ["Unauthorised:"; "Invalid Access Token"] = ["Unauthorised:"; reason] /\
    ("Invalid Access Token" ++ String "010"%char EmptyString)%string
    = (reason ++ String "010"%char EmptyString)%string /\
    (reason = "Invalid Access Token" \/ reason = "Invalid credentials" \/
     reason = "Mising or invalid access_token") /\
    reason <> "Malformed Basic Authorization crdentials".
Proof.
  split; [vm_compute; reflexivity|].
  apply (rejection_shape echo (bearerRequest "wrong")).
  vm_compute; reflexivity.
Defined.

Lemma colon_token_closes_Basic_witness :
  (Strings.Count (token (NewAuthHandler (fun r : Request => r) "a:b")) ":"%char
   <> O /\
   ParseRequest (basicRequest (Base64.EncodeToString "u:a:b"))
   = ("Basic", "dTphOmI=", None)) /\
  forall resp,
    ServeHTTP (NewAuthHandler (fun r : Request => r) "a:b")
      (basicRequest (Base64.EncodeToString "u:a:b"))
    <> Forwarded resp.
Proof.
  split.
  - split; [vm_compute; discriminate | vm_compute; reflexivity].
  - apply (colon_token_closes_Basic
             (NewAuthHandler (fun r : Request => r) "a:b")
             (basicRequest (Base64.EncodeToString "u:a:b")) "dTphOmI=" None);
      [vm_compute; discriminate | vm_compute; reflexivity].
Defined.

Lemma stacked_gates_distinct_tokens_witness :
  "s3cr3t" <> "other" /\
  forall resp,
    ServeHTTP
      (NewAuthHandler
         (ServeHTTP (NewAuthHandler (fun r : Request => r) "other")) "s3cr3t")
      (bearerRequest "s3cr3t")
    <> Forwarded (Forwarded resp).
Proof.
  split; [discriminate|].
  apply (stacked_gates_distinct_tokens (fun r : Request => r) "s3cr3t" "other").
  discriminate.
Defined.

Lemma ServeHTTP_Basic_encoded_witness :
  (Header (basicRequest (Base64.EncodeToString ("alice" ++ ":" ++ "s3cr3t")))
     !! "Authorization"
   = Some ["Basic " ++ Base64.EncodeToString ("alice" ++ ":" ++ "s3cr3t")] /\
   Strings.Count "alice" ":"%char = O /\
   Strings.Count "s3cr3t" ":"%char = O) /\
  ServeHTTP echo (basicRequest (Base64.EncodeToString ("alice" ++ ":" ++ "s3cr3t")))
  = Forwarded (basicRequest (Base64.EncodeToString ("alice" ++ ":" ++ "s3cr3t"))).
Proof.
  split.
  - repeat split; vm_compute; reflexivity.
  - rewrite (ServeHTTP_Basic_encoded echo _ "alice" "s3cr3t" []);
      vm_compute; reflexivity.
Defined.
